(** * A variational auto-encoder notebook (main.ipynb), embedded in Rocq

    The notebook builds a TensorFlow 1.x graph (an encoder, a decoder and a
    loss), a checkpoint cell and a training loop.  This development embeds

    - the tensors of the graph as a shape together with row-major data over
      the real numbers (the notebook computes in float32; every statement
      below is about exact real arithmetic),
    - the TensorFlow operations the notebook calls, with their documented
      shape rules (reshape with one inferred dimension, SAME padding,
      broadcasting of binary operations),
    - the random draws of a forward pass (dropout masks, Gaussian noise) as
      explicit inputs,
    - the Python statements of the checkpoint cell and of the training loop
      in a state-and-exception monad. *)

From Stdlib Require Import String Ascii.
From Stdlib Require Import Reals List Arith ZArith Lia Lra Bool.
Import ListNotations.

(** ** Exceptions and results *)

Inductive exn : Type :=
| InvalidArgumentError   (* TensorFlow: incompatible shapes at run time *)
| ValueError             (* TensorFlow: rank or shape refused when the graph is built *)
| NameError (name : string)
| TypeError
| AttributeError (attr : string)
| IndexError
| NotADirectoryError
| FileNotFoundError.

Inductive result (A : Type) : Type :=
| Ok (a : A)
| Raise (e : exn).
Arguments Ok {A} a.
Arguments Raise {A} e.

Definition rbind {A B} (r : result A) (k : A -> result B) : result B :=
  match r with
  | Ok a => k a
  | Raise e => Raise e
  end.

Declare Scope result_scope.
Delimit Scope result_scope with result.
Notation "x <- r ;; k" := (rbind r (fun x => k))
  (at level 61, r at next level, right associativity) : result_scope.
Notation "' p <- r ;; k" := (rbind r (fun x => let p := x in k))
  (at level 61, p pattern, r at next level, right associativity) : result_scope.

(** ** Tensors *)

Record tensor : Type := mkT { shape : list nat; data : list R }.

Definition size_of (s : list nat) : nat := fold_right Nat.mul 1 s.

Definition rsum (l : list R) : R := fold_right Rplus 0%R l.

Definition sum_upto (n : nat) (f : nat -> R) : R := rsum (map f (seq 0 n)).

Definition tabulate (n : nat) (f : nat -> R) : list R := map f (seq 0 n).

(** The tensor of shape [s] whose element at flat (row-major) position [k]
    is [f k]. *)
Definition init (s : list nat) (f : nat -> R) : tensor :=
  mkT s (tabulate (size_of s) f).

(** Element at a flat position; positions past the data read as 0. *)
Definition item (t : tensor) (k : nat) : R := nth k (data t) 0%R.

Definition wf (t : tensor) : Prop := length (data t) = size_of (shape t).

(** A Python float used as an operand is a rank-0 tensor. *)
Definition scalar (c : R) : tensor := mkT [] [c].

Definition tmap (f : R -> R) (t : tensor) : tensor :=
  mkT (shape t) (map f (data t)).

(** *** Broadcasting

    Shapes are aligned on their trailing dimensions; two dimensions are
    compatible when they are equal or one of them is 1.  Both functions
    work on reversed shapes (last dimension first). *)

Definition broadcast_dim (a b : nat) : option nat :=
  if a =? b then Some a
  else if a =? 1 then Some b
  else if b =? 1 then Some a
  else None.

Fixpoint broadcast_shape (rs1 rs2 : list nat) : option (list nat) :=
  match rs1, rs2 with
  | [], _ => Some rs2
  | _, [] => Some rs1
  | a :: r1, b :: r2 =>
      match broadcast_dim a b, broadcast_shape r1 r2 with
      | Some d, Some r => Some (d :: r)
      | _, _ => None
      end
  end.

(** Flat position in an operand of reversed shape [rs1] of the element that
    is paired with flat position [k] of the result of reversed shape [rs]. *)
Fixpoint broadcast_index (rs rs1 : list nat) (k : nat) : nat :=
  match rs, rs1 with
  | d :: rs', d1 :: rs1' =>
      (if d1 =? 1 then 0 else k mod d) + d1 * broadcast_index rs' rs1' (k / d)
  | _, _ => 0
  end.

Definition binop (f : R -> R -> R) (x y : tensor) : result tensor :=
  match broadcast_shape (rev (shape x)) (rev (shape y)) with
  | Some rs =>
      Ok (init (rev rs) (fun k =>
            f (item x (broadcast_index rs (rev (shape x)) k))
              (item y (broadcast_index rs (rev (shape y)) k))))
  | None => Raise InvalidArgumentError
  end.

Definition tf_add := binop Rplus.
Definition tf_subtract := binop Rminus.
Definition tf_multiply := binop Rmult.
Definition tf_maximum := binop Rmax.
Definition tf_squared_difference := binop (fun a b => ((a - b) * (a - b))%R).
Definition tf_square := tmap (fun a => (a * a)%R).
Definition tf_exp := tmap exp.
Definition tf_nn_sigmoid := tmap (fun a => (1 / (1 + exp (- a)))%R).

(** *** Reshape

    [tf.reshape(t, spec)]: at most one entry of [spec] is -1 and is inferred
    from the number of elements; the data is unchanged.  A refusal is the
    one a session run gives on a fed tensor; TensorFlow refuses a tensor
    whose shape is already known when the graph is built with [ValueError]
    instead, which this embedding does not tell apart. *)

Definition known_size (spec : list Z) : nat :=
  size_of (map Z.to_nat (filter (fun d => (0 <=? d)%Z) spec)).

Definition tf_reshape (t : tensor) (spec : list Z) : result tensor :=
  let n := size_of (shape t) in
  let k := known_size spec in
  if negb (forallb (fun d => (-1 <=? d)%Z) spec) then Raise ValueError
  else
    match count_occ Z.eq_dec spec (-1)%Z with
    | 0 =>
        if n =? k then Ok (mkT (map Z.to_nat spec) (data t))
        else Raise InvalidArgumentError
    | 1 =>
        if negb (k =? 0) && (n mod k =? 0)
        then Ok (mkT (map (fun d => if (d =? -1)%Z then n / k else Z.to_nat d) spec)
                     (data t))
        else Raise InvalidArgumentError
    | _ => Raise InvalidArgumentError
    end.

(** [tf.contrib.layers.flatten]: keeps the batch dimension, merges the rest. *)
Definition flatten (t : tensor) : result tensor :=
  match shape t with
  | n :: ((_ :: _) as rest) => Ok (mkT [n; size_of rest] (data t))
  | _ => Raise ValueError
  end.

(** *** Reductions *)

(** [tf.reduce_sum(t, axis=1)]. *)
Definition tf_reduce_sum_axis1 (t : tensor) : result tensor :=
  match shape t with
  | a :: p :: rest =>
      let r := size_of rest in
      Ok (init (a :: rest) (fun k =>
            sum_upto p (fun j => item t ((k / r * p + j) * r + k mod r))))
  | _ => Raise ValueError
  end.

(** [tf.reduce_mean(t)] over all elements: a rank-0 tensor. *)
Definition tf_reduce_mean (t : tensor) : tensor :=
  let n := size_of (shape t) in
  scalar (sum_upto n (item t) / INR n)%R.

(** ** Layers of [tf.layers] and [tf.nn] *)

(** Trainable variables of a layer.  TensorFlow creates them with the shape
    the layer needs, so they are total functions of their indices. *)
Record conv_vars : Type :=
  { conv_kernel : nat -> nat -> nat -> nat -> R; conv_bias : nat -> R }.
Record dense_vars : Type :=
  { dense_kernel : nat -> nat -> R; dense_bias : nat -> R }.

(** An activation is a function on tensors, or [None]. *)
Definition activation_fn : Type := option (tensor -> result tensor).

Definition activate (act : activation_fn) (t : tensor) : result tensor :=
  match act with
  | Some f => f t
  | None => Ok t
  end.

Definition tf_nn_relu : activation_fn := Some (fun t => Ok (tmap (Rmax 0) t)).
Definition tf_nn_sigmoid_act : activation_fn := Some (fun t => Ok (tf_nn_sigmoid t)).

(** SAME padding: output length and the padding put in front. *)
Definition same_out (n strides : nat) : nat := (n + strides - 1) / strides.
Definition same_pad (n kernel_size strides : nat) : nat :=
  ((same_out n strides - 1) * strides + kernel_size - n) / 2.

(** Element of an NHWC tensor; 0 outside its height and width (the zero
    padding), [y] and [x] being positions in the padded image. *)
Definition padded_get (t : tensor) (ph pw b y x c : nat) : R :=
  match shape t with
  | [_; h; w; ch] =>
      if (ph <=? y) && (y - ph <? h) && (pw <=? x) && (x - pw <? w)
      then item t (((b * h + (y - ph)) * w + (x - pw)) * ch + c)
      else 0%R
  | _ => 0%R
  end.

Definition tf_layers_conv2d (v : conv_vars) (inputs : tensor)
    (filters kernel_size strides : nat) (activation : activation_fn)
  : result tensor :=
  match shape inputs with
  | [n; h; w; ch] =>
      let oh := same_out h strides in
      let ow := same_out w strides in
      let ph := same_pad h kernel_size strides in
      let pw := same_pad w kernel_size strides in
      activate activation
        (init [n; oh; ow; filters] (fun k =>
           let b := k / (oh * ow * filters) in
           let i := k / (ow * filters) mod oh in
           let j := k / filters mod ow in
           let f := k mod filters in
           (sum_upto kernel_size (fun di =>
              sum_upto kernel_size (fun dj =>
                sum_upto ch (fun c =>
                  padded_get inputs ph pw b (i * strides + di) (j * strides + dj) c
                  * conv_kernel v di dj c f)))
            + conv_bias v f)%R))
  | _ => Raise ValueError
  end.

(** The transposed convolution is the adjoint of the convolution that maps
    an image of the output size back to the input size. *)
Definition tf_layers_conv2d_transpose (v : conv_vars) (inputs : tensor)
    (filters kernel_size strides : nat) (activation : activation_fn)
  : result tensor :=
  match shape inputs with
  | [n; h; w; ch] =>
      let oh := h * strides in
      let ow := w * strides in
      let ph := same_pad oh kernel_size strides in
      let pw := same_pad ow kernel_size strides in
      activate activation
        (init [n; oh; ow; filters] (fun k =>
           let b := k / (oh * ow * filters) in
           let y := k / (ow * filters) mod oh in
           let x := k / filters mod ow in
           let f := k mod filters in
           (sum_upto h (fun i => sum_upto kernel_size (fun di =>
              if i * strides + di =? y + ph then
                sum_upto w (fun j => sum_upto kernel_size (fun dj =>
                  if j * strides + dj =? x + pw then
                    sum_upto ch (fun c =>
                      item inputs (((b * h + i) * w + j) * ch + c)
                      * conv_kernel v di dj f c)
                  else 0))
              else 0))
            + conv_bias v f)%R))
  | _ => Raise ValueError
  end.

(** [tf.nn.dropout(x, keep_prob)]: the kept elements are scaled by
    [1 / keep_prob], the others are 0.  [keep] is the mask drawn for this
    run. *)
Definition tf_nn_dropout (keep : nat -> bool) (x : tensor) (keep_prob : R) : tensor :=
  init (shape x) (fun k => (item x k / keep_prob * (if keep k then 1 else 0))%R).

(** The leading dimensions of a shape and its last one. *)
Fixpoint split_last (s : list nat) : option (list nat * nat) :=
  match s with
  | [] => None
  | [d] => Some ([], d)
  | a :: s' =>
      match split_last s' with
      | Some (lead, d) => Some (a :: lead, d)
      | None => None
      end
  end.

(** [tf.layers.dense] works on the last axis of an input of rank at least
    2: every row of [d] numbers along that axis becomes a row of [units]
    numbers, the leading dimensions are kept. *)
Definition tf_layers_dense (v : dense_vars) (inputs : tensor) (units : nat)
    (activation : activation_fn) : result tensor :=
  match split_last (shape inputs) with
  | Some ((_ :: _) as lead, d) =>
      activate activation
        (init (lead ++ [units]) (fun k =>
           let b := k / units in
           let u := k mod units in
           (sum_upto d (fun i => item inputs (b * d + i) * dense_kernel v i u)
            + dense_bias v u)%R))
  | _ => Raise ValueError
  end.

(** [tf.random_normal(shape)]: [draw] are the samples of this run. *)
Definition tf_random_normal (draw : nat -> R) (s : list nat) : tensor := init s draw.

(** ** The notebook *)

(** *** Hyperparameters *)

Definition image_size : nat := 28.
Definition image_channel : nat := 1.
Definition image_size_flat : nat := image_size * image_size * image_channel.
Definition image_shape : list nat := [image_size; image_size; image_channel].

Definition keep_prob : R := 0.8%R.
Definition n_latent : nat := 8.
Definition decoder_units : nat := 32 * image_channel / 2.

Definition batch_size : nat := 24.
#[warnings="-abstract-large-number"]
Definition iterations : nat := 10000.
Definition log_step : nat := 100.
Definition viz_step : nat := 500.

(** *** Helpers *)

Local Open Scope result_scope.

Definition leakyReLU (alpha : R) (X : tensor) : result tensor :=
  aX <- tf_multiply X (scalar alpha);;
  tf_maximum X aX.

Definition conv2d (v : conv_vars) (keep : nat -> bool) (X : tensor)
    (filters kernel_size strides : nat) (activation : activation_fn)
    (dropout : bool) : result tensor :=
  layer <- tf_layers_conv2d v X filters kernel_size strides activation;;
  if dropout then Ok (tf_nn_dropout keep layer keep_prob) else Ok layer.

Definition conv2d_transpose (v : conv_vars) (keep : nat -> bool) (X : tensor)
    (filters kernel_size strides : nat) (activation : activation_fn)
    (dropout : bool) : result tensor :=
  layer <- tf_layers_conv2d_transpose v X filters kernel_size strides activation;;
  if dropout then Ok (tf_nn_dropout keep layer keep_prob) else Ok layer.

Definition dense (v : dense_vars) (X : tensor) (units : nat)
    (activation : activation_fn) : result tensor :=
  tf_layers_dense v X units activation.

(** *** Encoder *)

Record encoder_vars : Type :=
  { enc_conv1 : conv_vars; enc_conv2 : conv_vars; enc_conv3 : conv_vars;
    enc_mean : dense_vars; enc_stddev : dense_vars }.

(** What one run of the encoder draws at random. *)
Record encoder_draws : Type :=
  { enc_keep1 : nat -> bool; enc_keep2 : nat -> bool; enc_keep3 : nat -> bool;
    enc_noise : nat -> R }.

(** The flattened features the two projections read. *)
Definition encoder_features (v : encoder_vars) (r : encoder_draws) (X : tensor)
  : result tensor :=
  X <- tf_reshape X [(-1)%Z; Z.of_nat image_size; Z.of_nat image_size;
                     Z.of_nat image_channel];;
  X <- conv2d (enc_conv1 v) (enc_keep1 r) X 64 4 2 (Some (leakyReLU 0.3)) true;;
  X <- conv2d (enc_conv2 v) (enc_keep2 r) X 64 4 2 (Some (leakyReLU 0.3)) true;;
  X <- conv2d (enc_conv3 v) (enc_keep3 r) X 64 4 1 (Some (leakyReLU 0.3)) true;;
  flatten X.

(** The projection whose half is called [stddev] in the notebook. *)
Definition encoder_stddev_projection (v : encoder_vars) (X : tensor) : result tensor :=
  tf_layers_dense (enc_stddev v) X n_latent None.

Definition encoder (v : encoder_vars) (r : encoder_draws) (X : tensor)
  : result (tensor * tensor * tensor) :=
  X <- encoder_features v r X;;
  mean <- tf_layers_dense (enc_mean v) X n_latent None;;
  proj <- encoder_stddev_projection v X;;
  stddev <- tf_multiply (scalar 0.5) proj;;
  let noise := tf_random_normal (enc_noise r) [hd 0 (shape X); n_latent] in
  e <- tf_multiply noise (tf_exp stddev);;
  z <- tf_add mean e;;
  Ok (z, mean, stddev).

(** *** Decoder *)

Record decoder_vars : Type :=
  { dec_dense : dense_vars; dec_dense_1 : dense_vars;
    dec_conv1 : conv_vars; dec_conv2 : conv_vars; dec_conv3 : conv_vars;
    dec_dense_2 : dense_vars }.

Record decoder_draws : Type :=
  { dec_keep1 : nat -> bool; dec_keep2 : nat -> bool }.

Definition decoder (v : decoder_vars) (r : decoder_draws) (z : tensor)
  : result tensor :=
  X <- dense (dec_dense v) z decoder_units (Some (leakyReLU 0.3));;
  X <- dense (dec_dense_1 v) z (decoder_units * 2) (Some (leakyReLU 0.3));;
  let shape_ := nth 1 (shape X) 0 / 2 in
  let reshape_dim := [(-1)%Z; Z.of_nat shape_; Z.of_nat shape_; Z.of_nat image_channel] in
  X <- tf_reshape X reshape_dim;;
  X <- conv2d_transpose (dec_conv1 v) (dec_keep1 r) X 64 4 2 tf_nn_relu true;;
  X <- conv2d_transpose (dec_conv2 v) (dec_keep2 r) X 64 4 1 tf_nn_relu true;;
  X <- conv2d_transpose (dec_conv3 v) (fun _ => true) X 64 4 1 tf_nn_relu false;;
  X <- flatten X;;
  X <- dense (dec_dense_2 v) X image_size_flat tf_nn_sigmoid_act;;
  tf_reshape X ((-1)%Z :: map Z.of_nat image_shape).

(** *** Loss *)

Definition img_loss (img y : tensor) : result tensor :=
  img_reshape <- tf_reshape img [(-1)%Z; Z.of_nat image_size_flat];;
  d <- tf_squared_difference img_reshape y;;
  tf_reduce_sum_axis1 d.

Definition latent_loss (mean stddev : tensor) : result tensor :=
  a <- tf_multiply (scalar 2.0) stddev;;
  a <- tf_add (scalar 1.0) a;;
  a <- tf_subtract a (tf_square mean);;
  b <- tf_multiply (scalar 2.0) stddev;;
  a <- tf_subtract a (tf_exp b);;
  s <- tf_reduce_sum_axis1 a;;
  tf_multiply (scalar (-0.5)) s.

Definition loss (img y mean stddev : tensor) : result tensor :=
  il <- img_loss img y;;
  ll <- latent_loss mean stddev;;
  s <- tf_add il ll;;
  Ok (tf_reduce_mean s).

Definition model_vars : Type := (encoder_vars * decoder_vars)%type.
Definition run_draws : Type := (encoder_draws * decoder_draws)%type.

(** What a session run of the whole graph computes when [batch] is fed to
    both placeholders. *)
Record fetched : Type :=
  { f_z : tensor; f_mean : tensor; f_stddev : tensor; f_img : tensor;
    f_img_loss : tensor; f_latent_loss : tensor; f_loss : tensor }.

(** The placeholders have shape [[None, image_size_flat]]. *)
Definition feed (batch : tensor) : result tensor :=
  match shape batch with
  | [_; d] => if d =? image_size_flat then Ok batch else Raise ValueError
  | _ => Raise ValueError
  end.

Definition graph (v : model_vars) (r : run_draws) (batch : tensor) : result fetched :=
  X <- feed batch;;
  y <- feed batch;;
  '(z, mean, stddev) <- encoder (fst v) (fst r) X;;
  img <- decoder (snd v) (snd r) z;;
  il <- img_loss img y;;
  ll <- latent_loss mean stddev;;
  l <- loss img y mean stddev;;
  Ok {| f_z := z; f_mean := mean; f_stddev := stddev; f_img := img;
        f_img_loss := il; f_latent_loss := ll; f_loss := l |}.

(** Fetching [img] alone evaluates the encoder and the decoder only. *)
Definition graph_img (v : model_vars) (r : run_draws) (batch : tensor) : result tensor :=
  X <- feed batch;;
  '(z, mean, stddev) <- encoder (fst v) (fst r) X;;
  decoder (snd v) (snd r) z.

Local Close Scope result_scope.

(** ** The Python cells: a state-and-exception monad *)

Inductive node : Type :=
| FileNode
| DirNode (entries : list string).

Inductive pyval : Type :=
| PyFloat (r : R)            (* a numpy scalar *)
| PyArray (t : tensor)       (* a numpy array of rank at least 1 *)
| PyDatetime (t : Z)
| PyTimedelta (d : Z).

Inductive event : Type :=
| EvRestore (save_path : string)
| EvImshow
| EvShow.

Record world : Type :=
  { fs : string -> option node;            (* the file system *)
    checkpoints : string -> option model_vars; (* what a restore finds at a path *)
    env : list (string * pyval);           (* names bound so far *)
    stdout : list string;                  (* strings written, oldest first *)
    wall_clock : nat -> Z;                 (* the k-th reading of the clock *)
    readings : nat;
    batches : nat -> tensor;               (* the k-th batch of the data set *)
    drawn : nat;
    rng : nat -> run_draws;                (* the draws of the k-th session run *)
    runs : nat;
    vars : model_vars;                     (* the session's variables *)
    trace : list event }.

Definition M (A : Type) : Type := world -> result A * world.

Definition ret {A} (a : A) : M A := fun w => (Ok a, w).
Definition raise {A} (e : exn) : M A := fun w => (Raise e, w).
Definition bind {A B} (m : M A) (k : A -> M B) : M B :=
  fun w => match m w with
           | (Ok a, w') => k a w'
           | (Raise e, w') => (Raise e, w')
           end.
Definition lift {A} (r : result A) : M A := fun w => (r, w).

Declare Scope py_scope.
Delimit Scope py_scope with py.
Notation "x <- m ;; k" := (bind m (fun x => k))
  (at level 61, m at next level, right associativity) : py_scope.
Notation "m ;;; k" := (bind m (fun _ => k))
  (at level 61, right associativity) : py_scope.
Local Open Scope py_scope.
Local Open Scope string_scope.

Definition with_fs (w : world) (f : string -> option node) : world :=
  {| fs := f; checkpoints := checkpoints w; env := env w; stdout := stdout w;
     wall_clock := wall_clock w; readings := readings w; batches := batches w;
     drawn := drawn w; rng := rng w; runs := runs w; vars := vars w;
     trace := trace w |}.
Definition with_env (w : world) (e : list (string * pyval)) : world :=
  {| fs := fs w; checkpoints := checkpoints w; env := e; stdout := stdout w;
     wall_clock := wall_clock w; readings := readings w; batches := batches w;
     drawn := drawn w; rng := rng w; runs := runs w; vars := vars w;
     trace := trace w |}.
Definition with_stdout (w : world) (o : list string) : world :=
  {| fs := fs w; checkpoints := checkpoints w; env := env w; stdout := o;
     wall_clock := wall_clock w; readings := readings w; batches := batches w;
     drawn := drawn w; rng := rng w; runs := runs w; vars := vars w;
     trace := trace w |}.
Definition with_readings (w : world) (n : nat) : world :=
  {| fs := fs w; checkpoints := checkpoints w; env := env w; stdout := stdout w;
     wall_clock := wall_clock w; readings := n; batches := batches w;
     drawn := drawn w; rng := rng w; runs := runs w; vars := vars w;
     trace := trace w |}.
Definition with_drawn (w : world) (n : nat) : world :=
  {| fs := fs w; checkpoints := checkpoints w; env := env w; stdout := stdout w;
     wall_clock := wall_clock w; readings := readings w; batches := batches w;
     drawn := n; rng := rng w; runs := runs w; vars := vars w;
     trace := trace w |}.
Definition with_runs (w : world) (n : nat) : world :=
  {| fs := fs w; checkpoints := checkpoints w; env := env w; stdout := stdout w;
     wall_clock := wall_clock w; readings := readings w; batches := batches w;
     drawn := drawn w; rng := rng w; runs := n; vars := vars w;
     trace := trace w |}.
Definition with_vars (w : world) (v : model_vars) : world :=
  {| fs := fs w; checkpoints := checkpoints w; env := env w; stdout := stdout w;
     wall_clock := wall_clock w; readings := readings w; batches := batches w;
     drawn := drawn w; rng := rng w; runs := runs w; vars := v;
     trace := trace w |}.
Definition with_trace (w : world) (t : list event) : world :=
  {| fs := fs w; checkpoints := checkpoints w; env := env w; stdout := stdout w;
     wall_clock := wall_clock w; readings := readings w; batches := batches w;
     drawn := drawn w; rng := rng w; runs := runs w; vars := vars w;
     trace := t |}.

(** *** Names

    Only the names the logging statement reads are tracked in [env]; the
    names the cells of the notebook assign to are listed in
    [assigned_names]. *)

Definition assigned_names : list string :=
  [ "sys"; "os"; "dt"; "np"; "tf"; "plt"; "input_data"; "data";
    "image_size"; "image_channel"; "image_size_flat"; "image_shape";
    "keep_prob"; "n_latent"; "decoder_units"; "learning_rate"; "batch_size";
    "iterations"; "log_step"; "viz_step"; "X"; "y";
    "leakyReLU"; "conv2d"; "conv2d_transpose"; "dense"; "encoder"; "decoder";
    "z"; "mean"; "stddev"; "img"; "img_reshape"; "img_loss"; "latent_loss";
    "loss"; "optimizer"; "train_step"; "sess"; "init";
    "tensorboard_path"; "save_path"; "logdir"; "pretrained"; "saver"; "writer";
    "train_start"; "i"; "batch"; "feed_dict"; "_loss"; "_img_loss";
    "_latent_loss"; "_mean"; "_stddev"; "_reconstruct" ].

Fixpoint lookup (name : string) (e : list (string * pyval)) : option pyval :=
  match e with
  | [] => None
  | (n, v) :: e' => if String.eqb n name then Some v else lookup name e'
  end.

Definition load_name (name : string) : M pyval :=
  fun w => match lookup name (env w) with
           | Some v => (Ok v, w)
           | None => (Raise (NameError name), w)
           end.

Definition store_name (name : string) (v : pyval) : M unit :=
  fun w => (Ok tt, with_env w ((name, v) :: env w)).

(** *** The checkpoint cell *)

Definition save_path : string := "models/".

Definition tf_gfile_Exists (path : string) : M bool :=
  fun w => (Ok (match fs w path with Some _ => true | None => false end), w).

Definition os_listdir (path : string) : M (list string) :=
  fun w => match fs w path with
           | Some (DirNode entries) => (Ok entries, w)
           | Some FileNode => (Raise NotADirectoryError, w)
           | None => (Raise FileNotFoundError, w)
           end.

Definition tf_gfile_MakeDirs (path : string) : M unit :=
  fun w => (Ok tt, with_fs w (fun p => if String.eqb p path then Some (DirNode [])
                                       else fs w p)).

(** [saver.restore(sess, save_path)]: the call is recorded, then every
    variable is overwritten by what the store holds at the path, if
    anything. *)
Definition saver_restore (path : string) : M unit :=
  fun w =>
    let w' := with_trace w (trace w ++ [EvRestore path]) in
    match checkpoints w path with
    | Some v => (Ok tt, with_vars w' v)
    | None => (Raise ValueError, w')
    end.

(** The [if] statement that ends the cell (lines 356-360).  The statements
    before it in the cell bind six names and open the summary writer under
    [tensorboard/log]; they act on other names and other paths and are not
    embedded. *)
Definition checkpoint_cell : M unit :=
  exists_ <- tf_gfile_Exists save_path;;
  if (exists_ : bool) then
    names <- os_listdir save_path;;
    if (1 <? length names)%nat then saver_restore save_path else ret tt
  else tf_gfile_MakeDirs save_path.

Definition restores (t : list event) : nat :=
  length (filter (fun e => match e with EvRestore _ => true | _ => false end) t).

(** *** The training cell *)

Definition datetime_now : M pyval :=
  fun w => (Ok (PyDatetime (wall_clock w (readings w))),
            with_readings w (S (readings w))).

(** [data.train.next_batch(batch_size=batch_size)[0]]. *)
Definition next_batch : M tensor :=
  fun w => (Ok (batches w (drawn w)), with_drawn w (S (drawn w))).

(** [sess.run(fetches, feed_dict={X: batch, y: batch})]: one forward pass
    with fresh draws. *)
Definition sess_run (batch : tensor) : M fetched :=
  fun w => (graph (vars w) (rng w (runs w)) batch, with_runs w (S (runs w))).

(** [sess.run(img, feed_dict={X: batch, y: batch})]. *)
Definition sess_run_img (batch : tensor) : M tensor :=
  fun w => (graph_img (vars w) (rng w (runs w)) batch, with_runs w (S (runs w))).

Definition sys_stdout_write (s : string) : M unit :=
  fun w => (Ok tt, with_stdout w (stdout w ++ [s])).

Definition plt (e : event) : M unit :=
  fun w => (Ok tt, with_trace w (trace w ++ [e])).

Definition py_sub (a b : pyval) : result pyval :=
  match a, b with
  | PyFloat x, PyFloat y => Ok (PyFloat (x - y))
  | PyDatetime x, PyDatetime y => Ok (PyTimedelta (x - y))
  | PyDatetime x, PyTimedelta y => Ok (PyDatetime (x - y))
  | PyTimedelta x, PyTimedelta y => Ok (PyTimedelta (x - y))
  | _, _ => Raise TypeError
  end.

(** A replacement field of a format string: [{:spec}], [{.attr}] or [{}];
    all of them take the next positional argument. *)
Inductive field : Type :=
| FSpec (spec : string)
| FAttr (attr : string)
| FPlain.

Inductive piece : Type :=
| Lit (s : string)
| Fld (f : field).

Definition cr : string := String "013"%char "".
Definition tab : string := String "009"%char "".
Definition nl : string := String "010"%char "".

(** The format string of the logging statement. *)
Definition log_template : list piece :=
  [ Lit (cr ++ "Loss="); Fld (FSpec ".2f");
    Lit (tab ++ "img_loss = "); Fld (FSpec ".2f");
    Lit (tab ++ "latent_loss = "); Fld (FSpec ".2f");
    Lit (tab ++ "mean = "); Fld (FAttr "2f");
    Lit (tab ++ "stddev = "); Fld (FSpec ".2f");
    Lit (tab ++ "Time taken = "); Fld FPlain ].

Section Training.

(** One step of the Adam optimiser on the loss of a run; the update rule
    is TensorFlow's and is left open. *)
Variable minimize : model_vars -> run_draws -> tensor -> model_vars.

(** How a float is printed under a format specification, and [str()]. *)
Variable format_float : string -> R -> string.
Variable str : pyval -> string.

Definition format_field (f : field) (v : pyval) : result string :=
  match f with
  | FAttr a => Raise (AttributeError a)
  | FPlain => Ok (str v)
  | FSpec spec =>
      match v with
      | PyFloat r => Ok (format_float spec r)
      | PyDatetime _ => Ok spec
      | PyArray _ | PyTimedelta _ => Raise TypeError
      end
  end.

Fixpoint str_format (template : list piece) (args : list pyval) : result string :=
  match template with
  | [] => Ok ""
  | Lit s :: rest => rbind (str_format rest args) (fun r => Ok (s ++ r))
  | Fld f :: rest =>
      match args with
      | [] => Raise IndexError
      | a :: args' =>
          rbind (format_field f a) (fun s =>
          rbind (str_format rest args') (fun r => Ok (s ++ r)))
      end
  end.

(** [sess.run(train_step, feed_dict)]: a forward pass, then the update. *)
Definition sess_run_train_step (batch : tensor) : M unit :=
  fun w =>
    let r := rng w (runs w) in
    let w' := with_runs w (S (runs w)) in
    match graph (vars w) r batch with
    | Ok _ => (Ok tt, with_vars w' (minimize (vars w) r batch))
    | Raise e => (Raise e, w')
    end.

(** The [sys.stdout.write(... .format(...))] statement: the arguments are
    evaluated from left to right, then formatted, then written. *)
Definition log_statement : M unit :=
  a1 <- load_name "_loss";;
  a2 <- load_name "_img_loss";;
  a3 <- load_name "_latent_loss";;
  a4 <- load_name "_mean";;
  a5 <- load_name "_stddev";;
  t <- datetime_now;;
  t0 <- load_name "start_time";;
  d <- lift (py_sub t t0);;
  s <- lift (str_format log_template [a1; a2; a3; a4; a5; d]);;
  sys_stdout_write s.

(** The body of [if i % log_step == 0]. *)
Definition log_block (batch : tensor) : M unit :=
  f <- sess_run batch;;
  store_name "_loss" (PyFloat (item (f_loss f) 0));;;
  store_name "_img_loss" (PyArray (f_img_loss f));;;
  store_name "_latent_loss" (PyArray (f_latent_loss f));;;
  store_name "_mean" (PyArray (f_mean f));;;
  store_name "_stddev" (PyArray (f_stddev f));;;
  log_statement.

(** The body of [if i % viz_step == 0]; the plots are events. *)
Definition viz_block (batch : tensor) : M unit :=
  img <- sess_run_img batch;;
  store_name "_reconstruct" (PyArray img);;;
  plt EvImshow;;;
  plt EvImshow;;;
  plt EvShow;;;
  sys_stdout_write nl.

Definition iteration (i : nat) : M unit :=
  batch <- next_batch;;
  store_name "batch" (PyArray batch);;;
  sess_run_train_step batch;;;
  (if (i mod log_step =? 0)%nat then log_block batch else ret tt);;;
  (if (i mod viz_step =? 0)%nat then viz_block batch else ret tt).

Fixpoint for_range (l : list nat) (body : nat -> M unit) : M unit :=
  match l with
  | [] => ret tt
  | i :: l' => body i;;; for_range l' body
  end.

Definition training_cell : M unit :=
  t <- datetime_now;;
  store_name "train_start" t;;;
  for_range (seq 0 iterations) iteration.

End Training.

Local Close Scope string_scope.
Local Close Scope py_scope.

(** ** Readings of the claims and sample inputs *)

(** An activation that returns a tensor of the shape it was given. *)
Definition shape_preserving (act : activation_fn) : Prop :=
  forall t, exists t', activate act t = Ok t' /\ shape t' = shape t.

(** The decoder from its reshape onwards, as a function of the tensor the
    second dense layer returns. *)
Definition decoder_tail (v : decoder_vars) (r : decoder_draws) (X : tensor)
  : result tensor :=
  let shape_ := nth 1 (shape X) 0 / 2 in
  let reshape_dim := [(-1)%Z; Z.of_nat shape_; Z.of_nat shape_; Z.of_nat image_channel] in
  rbind (tf_reshape X reshape_dim) (fun X =>
  rbind (conv2d_transpose (dec_conv1 v) (dec_keep1 r) X 64 4 2 tf_nn_relu true) (fun X =>
  rbind (conv2d_transpose (dec_conv2 v) (dec_keep2 r) X 64 4 1 tf_nn_relu true) (fun X =>
  rbind (conv2d_transpose (dec_conv3 v) (fun _ => true) X 64 4 1 tf_nn_relu false) (fun X =>
  rbind (flatten X) (fun X =>
  rbind (dense (dec_dense_2 v) X image_size_flat tf_nn_sigmoid_act) (fun X =>
  tf_reshape X ((-1)%Z :: map Z.of_nat image_shape))))))).

(** The summand of the KL term for one latent dimension. *)
Definition kl_term (m s : R) : R := (1 + 2 * s - m * m - exp (2 * s))%R.

(** *** Sample variables, draws and batches *)

Definition zero_conv : conv_vars :=
  {| conv_kernel := fun _ _ _ _ => 0%R; conv_bias := fun _ => 0%R |}.
Definition zero_dense : dense_vars :=
  {| dense_kernel := fun _ _ => 0%R; dense_bias := fun _ => 0%R |}.
Definition zero_decoder : decoder_vars :=
  {| dec_dense := zero_dense; dec_dense_1 := zero_dense;
     dec_conv1 := zero_conv; dec_conv2 := zero_conv; dec_conv3 := zero_conv;
     dec_dense_2 := zero_dense |}.

(** Draws that keep every element and add no noise. *)
Definition keep_all : encoder_draws :=
  {| enc_keep1 := fun _ => true; enc_keep2 := fun _ => true;
     enc_keep3 := fun _ => true; enc_noise := fun _ => 0%R |}.
Definition keep_all_dec : decoder_draws :=
  {| dec_keep1 := fun _ => true; dec_keep2 := fun _ => true |}.

(** A batch of [B] black images, flat and as images. *)
Definition black (B : nat) : tensor := init [B; image_size_flat] (fun _ => 0%R).
Definition black_images (B : nat) : tensor := init (B :: image_shape) (fun _ => 0%R).

(** One latent vector of zeros. *)
Definition zero_latent : tensor :=
  mkT [1; n_latent] [0; 0; 0; 0; 0; 0; 0; 0]%R.

(** An optimiser that changes nothing, and formatting that prints nothing. *)
Definition no_update (v : model_vars) (r : run_draws) (batch : tensor) : model_vars := v.
Definition no_format (spec : string) (r : R) : string := EmptyString.
Definition no_str (v : pyval) : string := EmptyString.

(** A reading of C2: the third output is the projection itself. *)
Definition stddev_is_raw_projection (ev : encoder_vars) (er : encoder_draws)
    (X : tensor) : Prop :=
  forall feat proj z mean stddev,
    encoder_features ev er X = Ok feat ->
    encoder_stddev_projection ev feat = Ok proj ->
    encoder ev er X = Ok (z, mean, stddev) ->
    stddev = proj.

(** An encoder whose second projection has bias 2 and kernel 0. *)
Definition bias2_encoder : encoder_vars :=
  {| enc_conv1 := zero_conv; enc_conv2 := zero_conv; enc_conv3 := zero_conv;
     enc_mean := zero_dense;
     enc_stddev := {| dense_kernel := fun _ _ => 0%R; dense_bias := fun _ => 2%R |} |}.

(** An encoder whose last convolution returns 1 everywhere and whose [mean]
    projection adds up the features. *)
Definition sum_encoder : encoder_vars :=
  {| enc_conv1 := zero_conv; enc_conv2 := zero_conv;
     enc_conv3 := {| conv_kernel := fun _ _ _ _ => 0%R; conv_bias := fun _ => 1%R |};
     enc_mean := {| dense_kernel := fun _ _ => 1%R; dense_bias := fun _ => 0%R |};
     enc_stddev := zero_dense |}.

(** Draws whose third dropout keeps nothing, with noise 1. *)
Definition drop_last : encoder_draws :=
  {| enc_keep1 := fun _ => true; enc_keep2 := fun _ => true;
     enc_keep3 := fun _ => false; enc_noise := fun _ => 1%R |}.

(** A reading of C7: two runs on the same batch agree on [mean] and
    [stddev] and differ on [z]. *)
Definition two_runs_differ_only_in_z (ev : encoder_vars) (X : tensor)
    (r1 r2 : encoder_draws) : Prop :=
  forall z1 mean1 stddev1 z2 mean2 stddev2,
    encoder ev r1 X = Ok (z1, mean1, stddev1) ->
    encoder ev r2 X = Ok (z2, mean2, stddev2) ->
    mean1 = mean2 /\ stddev1 = stddev2 /\ z1 <> z2.

Definition zero_encoder : encoder_vars :=
  {| enc_conv1 := zero_conv; enc_conv2 := zero_conv; enc_conv3 := zero_conv;
     enc_mean := zero_dense; enc_stddev := zero_dense |}.

(** A world in which nothing has run yet, over a given file system, with a
    data set of black images. *)
Definition fresh_world (f : string -> option node) : world :=
  {| fs := f; checkpoints := fun _ => None; env := []; stdout := [];
     wall_clock := fun k => Z.of_nat k; readings := 0;
     batches := fun _ => black batch_size; drawn := 0;
     rng := fun _ => (keep_all, keep_all_dec); runs := 0;
     vars := (zero_encoder, zero_decoder); trace := [] |}.

(** A checkpoint directory that holds a single file. *)
Definition one_file_fs (p : string) : option node :=
  if String.eqb p save_path then Some (DirNode ["checkpoint"%string]) else None.

(** A reading of C5: the restore is called, and the directory is not
    empty. *)
Definition restore_triggered (w : world) : Prop :=
  restores (trace (snd (checkpoint_cell w))) = S (restores (trace w)).

Definition checkpoint_dir_nonempty (w : world) : Prop :=
  exists e es, fs w save_path = Some (DirNode (e :: es)).

(** *** Further sample inputs *)

(** A file system in which the checkpoint path is a plain file. *)
Definition file_fs (p : string) : option node :=
  if String.eqb p save_path then Some FileNode else None.

(** A world in which nothing has run yet and every batch is [b]. *)
Definition world_of_batches (b : tensor) : world :=
  {| fs := fun _ => None; checkpoints := fun _ => None; env := []; stdout := [];
     wall_clock := fun k => Z.of_nat k; readings := 0;
     batches := fun _ => b; drawn := 0;
     rng := fun _ => (keep_all, keep_all_dec); runs := 0;
     vars := (zero_encoder, zero_decoder); trace := [] |}.

(** * Properties *)

(** ** The shape rules on the notebook's sizes *)

Example decoder_units_value : decoder_units = 16 /\ image_size_flat = 784.
Proof. split; reflexivity. Qed.

Example same_out_values :
  same_out 28 2 = 14 /\ same_out 14 2 = 7 /\ same_out 7 1 = 7.
Proof. repeat split. Qed.

Example same_pad_values :
  same_pad 28 4 2 = 1 /\ same_pad 14 4 2 = 1 /\ same_pad 7 4 1 = 1
  /\ same_pad 32 4 2 = 1 /\ same_pad 32 4 1 = 1.
Proof. repeat split. Qed.

Example tf_reshape_small (d : list R) :
  tf_reshape (mkT [2; 3] d) [(-1)%Z; 2%Z] = Ok (mkT [3; 2] d)
  /\ tf_reshape (mkT [2; 3] d) [(-1)%Z; 4%Z] = Raise InvalidArgumentError
  /\ tf_reshape (mkT [2; 3] d) [3%Z; 2%Z] = Ok (mkT [3; 2] d)
  /\ tf_reshape (mkT [2; 3] d) [(-1)%Z; (-1)%Z] = Raise InvalidArgumentError.
Proof. repeat split. Qed.

Example broadcast_shape_values :
  broadcast_shape (rev [3; 784]) (rev [24; 784]) = None
  /\ broadcast_shape (rev [1; 784]) (rev [8; 784]) = Some (rev [8; 784])
  /\ broadcast_shape (rev []) (rev [24; 8]) = Some (rev [24; 8]).
Proof. repeat split. Qed.

Example broadcast_index_values :
  map (broadcast_index [3; 2] [3; 1]) (seq 0 6) = [0; 1; 2; 0; 1; 2]
  /\ map (broadcast_index [3; 2] [3; 2]) (seq 0 6) = [0; 1; 2; 3; 4; 5]
  /\ map (broadcast_index [3; 2] []) (seq 0 6) = [0; 0; 0; 0; 0; 0].
Proof. repeat split. Qed.

(** ** Sums *)

Lemma sum_upto_S (n : nat) (f : nat -> R) :
  sum_upto (S n) f = (sum_upto n f + f n)%R.
Proof.
  unfold sum_upto. rewrite seq_S, map_app. simpl.
  induction (map f (seq 0 n)) as [|a l IH]; simpl.
  - lra.
  - rewrite IH. lra.
Qed.

Lemma sum_upto_ext (n : nat) (f g : nat -> R) :
  (forall i, i < n -> f i = g i) -> sum_upto n f = sum_upto n g.
Proof.
  induction n as [|n IH]; intros H.
  - reflexivity.
  - rewrite !sum_upto_S, IH, (H n) by auto with arith. reflexivity.
Qed.

Lemma sum_upto_zero (n : nat) (f : nat -> R) :
  (forall i, i < n -> f i = 0%R) -> sum_upto n f = 0%R.
Proof.
  induction n as [|n IH]; intros H.
  - reflexivity.
  - rewrite sum_upto_S, IH, (H n) by auto with arith. lra.
Qed.

Lemma sum_upto_const (n : nat) (c : R) :
  sum_upto n (fun _ => c) = (INR n * c)%R.
Proof.
  induction n as [|n IH].
  - unfold sum_upto. simpl. lra.
  - rewrite sum_upto_S, IH, S_INR. lra.
Qed.

Lemma sum_upto_le (n : nat) (f g : nat -> R) :
  (forall i, i < n -> (f i <= g i)%R) -> (sum_upto n f <= sum_upto n g)%R.
Proof.
  induction n as [|n IH]; intros H.
  - unfold sum_upto. simpl. lra.
  - rewrite !sum_upto_S.
    specialize (H n (Nat.lt_succ_diag_r n)) as Hn.
    assert (sum_upto n f <= sum_upto n g)%R by (apply IH; auto with arith).
    lra.
Qed.

Lemma sum_upto_plus (n : nat) (f g : nat -> R) :
  sum_upto n (fun i => (f i + g i)%R) = (sum_upto n f + sum_upto n g)%R.
Proof.
  induction n as [|n IH].
  - unfold sum_upto. simpl. lra.
  - rewrite !sum_upto_S, IH. lra.
Qed.

Lemma sum_upto_scal (n : nat) (c : R) (f : nat -> R) :
  sum_upto n (fun i => (c * f i)%R) = (c * sum_upto n f)%R.
Proof.
  induction n as [|n IH].
  - unfold sum_upto. simpl. lra.
  - rewrite !sum_upto_S, IH. lra.
Qed.

(** ** Tensors built by [init] *)

Lemma shape_init (s : list nat) (f : nat -> R) : shape (init s f) = s.
Proof. reflexivity. Qed.

Lemma item_init (s : list nat) (f : nat -> R) (k : nat) :
  k < size_of s -> item (init s f) k = f k.
Proof.
  intros Hk. unfold item, init, tabulate. simpl.
  rewrite (nth_indep _ 0%R (f 0)) by (rewrite length_map, length_seq; exact Hk).
  rewrite map_nth, seq_nth by exact Hk. reflexivity.
Qed.

Lemma init_ext (s : list nat) (f g : nat -> R) :
  (forall k, k < size_of s -> f k = g k) -> init s f = init s g.
Proof.
  intros H. unfold init, tabulate. f_equal.
  apply map_ext_in. intros k Hk. apply in_seq in Hk. apply H. lia.
Qed.

Lemma wf_init (s : list nat) (f : nat -> R) : wf (init s f).
Proof. unfold wf, init, tabulate. simpl. now rewrite length_map, length_seq. Qed.

Lemma item_tmap (g : R -> R) (t : tensor) (k : nat) :
  k < length (data t) -> item (tmap g t) k = g (item t k).
Proof.
  intros Hk. unfold item, tmap. simpl.
  rewrite (nth_indep _ 0%R (g 0%R)) by (now rewrite length_map).
  apply map_nth.
Qed.

Lemma size_of_app (s1 s2 : list nat) :
  size_of (s1 ++ s2) = size_of s1 * size_of s2.
Proof.
  induction s1 as [|a s1 IH]; simpl.
  - lia.
  - rewrite IH. lia.
Qed.

Lemma size_of_rev (s : list nat) : size_of (rev s) = size_of s.
Proof.
  induction s as [|a s IH]; simpl.
  - reflexivity.
  - rewrite size_of_app, IH. simpl. lia.
Qed.

(** ** Broadcasting *)

Lemma broadcast_dim_same (a : nat) : broadcast_dim a a = Some a.
Proof. unfold broadcast_dim. now rewrite Nat.eqb_refl. Qed.

Lemma broadcast_shape_same (rs : list nat) : broadcast_shape rs rs = Some rs.
Proof.
  induction rs as [|a rs IH]; simpl.
  - reflexivity.
  - now rewrite broadcast_dim_same, IH.
Qed.

Lemma broadcast_shape_nil_r (rs : list nat) : broadcast_shape rs [] = Some rs.
Proof. destruct rs; reflexivity. Qed.

Lemma broadcast_index_nil (rs : list nat) (k : nat) : broadcast_index rs [] k = 0.
Proof. destruct rs; reflexivity. Qed.

Lemma broadcast_index_same (rs : list nat) (k : nat) :
  k < size_of rs -> broadcast_index rs rs k = k.
Proof.
  revert k. induction rs as [|d rs IH]; simpl; intros k Hk.
  - lia.
  - assert (Hd : d <> 0) by (intros ->; simpl in Hk; lia).
    rewrite IH.
    + destruct (d =? 1) eqn:E.
      * apply Nat.eqb_eq in E. subst d. rewrite Nat.div_1_r. lia.
      * pose proof (Nat.div_mod_eq k d). lia.
    + apply Nat.Div0.div_lt_upper_bound. lia.
Qed.

(** A binary operation on two tensors of the same shape works element by
    element. *)
Lemma binop_same_shape (f : R -> R -> R) (x y : tensor) :
  shape x = shape y ->
  binop f x y = Ok (init (shape x) (fun k => f (item x k) (item y k))).
Proof.
  intros E. unfold binop. rewrite <- E, broadcast_shape_same, rev_involutive.
  f_equal. apply init_ext. intros k Hk.
  rewrite broadcast_index_same by (now rewrite size_of_rev). reflexivity.
Qed.

(** A Python float on the left is paired with every element. *)
Lemma binop_scalar_l (f : R -> R -> R) (c : R) (y : tensor) :
  binop f (scalar c) y = Ok (init (shape y) (fun k => f c (item y k))).
Proof.
  unfold binop. simpl. rewrite rev_involutive.
  f_equal. apply init_ext. intros k Hk.
  rewrite broadcast_index_nil, broadcast_index_same by (now rewrite size_of_rev).
  reflexivity.
Qed.

Lemma binop_scalar_r (f : R -> R -> R) (x : tensor) (c : R) :
  binop f x (scalar c) = Ok (init (shape x) (fun k => f (item x k) c)).
Proof.
  unfold binop. simpl. rewrite broadcast_shape_nil_r, rev_involutive.
  f_equal. apply init_ext. intros k Hk.
  rewrite broadcast_index_nil, broadcast_index_same by (now rewrite size_of_rev).
  reflexivity.
Qed.

(** ** Shapes of the layers *)

Lemma leakyReLU_eq (alpha : R) (X : tensor) :
  leakyReLU alpha X
  = Ok (init (shape X) (fun k => Rmax (item X k) (item X k * alpha))).
Proof.
  unfold leakyReLU, tf_multiply, tf_maximum.
  rewrite binop_scalar_r. cbn [rbind].
  rewrite binop_same_shape by reflexivity.
  f_equal. apply init_ext. intros k Hk.
  now rewrite item_init.
Qed.

Lemma shape_preserving_leakyReLU (alpha : R) :
  shape_preserving (Some (leakyReLU alpha)).
Proof. intros t. simpl. rewrite leakyReLU_eq. eauto. Qed.

Lemma shape_preserving_relu : shape_preserving tf_nn_relu.
Proof. intros t. simpl. eauto. Qed.

Lemma shape_preserving_sigmoid : shape_preserving tf_nn_sigmoid_act.
Proof. intros t. simpl. eauto. Qed.

Lemma shape_preserving_None : shape_preserving None.
Proof. intros t. simpl. eauto. Qed.

Create HintDb shapes.
#[local] Hint Resolve shape_preserving_leakyReLU shape_preserving_relu
  shape_preserving_sigmoid shape_preserving_None : shapes.

Lemma tf_layers_conv2d_shape v X filters ks s act n h w c :
  shape_preserving act -> shape X = [n; h; w; c] ->
  exists t, tf_layers_conv2d v X filters ks s act = Ok t
            /\ shape t = [n; same_out h s; same_out w s; filters].
Proof.
  intros Hact HX. unfold tf_layers_conv2d. rewrite HX.
  destruct (Hact (init [n; same_out h s; same_out w s; filters] (fun k =>
           let b := k / (same_out h s * same_out w s * filters) in
           let i := k / (same_out w s * filters) mod same_out h s in
           let j := k / filters mod same_out w s in
           let f := k mod filters in
           (sum_upto ks (fun di =>
              sum_upto ks (fun dj =>
                sum_upto c (fun c0 =>
                  padded_get X (same_pad h ks s) (same_pad w ks s) b
                    (i * s + di) (j * s + dj) c0
                  * conv_kernel v di dj c0 f)))
            + conv_bias v f)%R))) as (t & E & S).
  exists t. split; [exact E | exact S].
Qed.

Lemma conv2d_shape v keep X filters ks s act dropout n h w c :
  shape_preserving act -> shape X = [n; h; w; c] ->
  exists t, conv2d v keep X filters ks s act dropout = Ok t
            /\ shape t = [n; same_out h s; same_out w s; filters].
Proof.
  intros Hact HX. unfold conv2d.
  destruct (tf_layers_conv2d_shape v X filters ks s act n h w c Hact HX) as (t & E & S).
  rewrite E. cbn [rbind]. destruct dropout; eexists; split; try reflexivity; exact S.
Qed.

Lemma tf_layers_conv2d_transpose_shape v X filters ks s act n h w c :
  shape_preserving act -> shape X = [n; h; w; c] ->
  exists t, tf_layers_conv2d_transpose v X filters ks s act = Ok t
            /\ shape t = [n; h * s; w * s; filters].
Proof.
  intros Hact HX. unfold tf_layers_conv2d_transpose. rewrite HX.
  match goal with |- exists t, activate act ?u = _ /\ _ =>
    destruct (Hact u) as (t & E & S) end.
  exists t. split; [exact E | exact S].
Qed.

Lemma conv2d_transpose_shape v keep X filters ks s act dropout n h w c :
  shape_preserving act -> shape X = [n; h; w; c] ->
  exists t, conv2d_transpose v keep X filters ks s act dropout = Ok t
            /\ shape t = [n; h * s; w * s; filters].
Proof.
  intros Hact HX. unfold conv2d_transpose.
  destruct (tf_layers_conv2d_transpose_shape v X filters ks s act n h w c Hact HX) as (t & E & S).
  rewrite E. cbn [rbind]. destruct dropout; eexists; split; try reflexivity; exact S.
Qed.

Lemma tf_layers_dense_shape v X units act n d :
  shape_preserving act -> shape X = [n; d] ->
  exists t, tf_layers_dense v X units act = Ok t /\ shape t = [n; units].
Proof.
  intros Hact HX. unfold tf_layers_dense. rewrite HX. cbn [split_last app].
  match goal with |- exists t, activate act ?u = _ /\ _ =>
    destruct (Hact u) as (t & E & S) end.
  exists t. split; [exact E | exact S].
Qed.

(** The layer without activation, element by element. *)
Lemma tf_layers_dense_None v X units n d :
  shape X = [n; d] ->
  tf_layers_dense v X units None
  = Ok (init [n; units] (fun k =>
         (sum_upto d (fun i => item X (k / units * d + i) * dense_kernel v i (k mod units))
          + dense_bias v (k mod units))%R)).
Proof. intros HX. unfold tf_layers_dense. rewrite HX. reflexivity. Qed.

(** ** Reshape with an inferred leading dimension *)

Lemma known_size_of_nat (rest : list nat) :
  known_size ((-1)%Z :: map Z.of_nat rest) = size_of rest.
Proof.
  unfold known_size. simpl. f_equal.
  induction rest as [|a rest IH]; simpl.
  - reflexivity.
  - destruct (0 <=? Z.of_nat a)%Z eqn:E.
    + simpl. now rewrite Nat2Z.id, IH.
    + apply Z.leb_gt in E. lia.
Qed.

Lemma count_minus1_of_nat (rest : list nat) :
  count_occ Z.eq_dec (map Z.of_nat rest) (-1)%Z = 0.
Proof.
  induction rest as [|a rest IH]; simpl.
  - reflexivity.
  - destruct (Z.eq_dec (Z.of_nat a) (-1)); [lia | exact IH].
Qed.

Lemma forallb_of_nat (rest : list nat) :
  forallb (fun d => (-1 <=? d)%Z) (map Z.of_nat rest) = true.
Proof.
  induction rest as [|a rest IH]; simpl.
  - reflexivity.
  - rewrite IH, andb_true_r. apply Z.leb_le. lia.
Qed.

Lemma infer_of_nat (q : nat) (rest : list nat) :
  map (fun d => if (d =? -1)%Z then q else Z.to_nat d) (map Z.of_nat rest) = rest.
Proof.
  induction rest as [|a rest IH]; simpl.
  - reflexivity.
  - rewrite IH. destruct (Z.of_nat a =? -1)%Z eqn:E.
    + apply Z.eqb_eq in E. lia.
    + now rewrite Nat2Z.id.
Qed.

Lemma tf_reshape_infer (t : tensor) (rest : list nat) :
  size_of rest <> 0 -> size_of (shape t) mod size_of rest = 0 ->
  tf_reshape t ((-1)%Z :: map Z.of_nat rest)
  = Ok (mkT (size_of (shape t) / size_of rest :: rest) (data t)).
Proof.
  intros Hk Hm. unfold tf_reshape.
  rewrite known_size_of_nat.
  cbn [forallb count_occ]. rewrite forallb_of_nat. cbn [Z.leb Z.compare andb negb].
  destruct (Z.eq_dec (-1) (-1)) as [_|N]; [|congruence].
  rewrite count_minus1_of_nat.
  apply Nat.eqb_neq in Hk. rewrite Hk. apply Nat.eqb_eq in Hm. rewrite Hm.
  cbn [negb andb map Z.eqb Pos.eqb]. now rewrite infer_of_nat.
Qed.

Lemma tf_reshape_infer_fails (t : tensor) (rest : list nat) :
  size_of (shape t) mod size_of rest <> 0 ->
  tf_reshape t ((-1)%Z :: map Z.of_nat rest) = Raise InvalidArgumentError.
Proof.
  intros Hm. unfold tf_reshape.
  rewrite known_size_of_nat.
  cbn [forallb count_occ]. rewrite forallb_of_nat. cbn [Z.leb Z.compare andb negb].
  destruct (Z.eq_dec (-1) (-1)) as [_|N]; [|congruence].
  rewrite count_minus1_of_nat.
  apply Nat.eqb_neq in Hm. rewrite Hm. now rewrite andb_false_r.
Qed.

(** ** The encoder *)

Lemma size_of_1 (a : nat) : size_of [a] = a.
Proof. unfold size_of. simpl. lia. Qed.

Lemma size_of_2 (a b : nat) : size_of [a; b] = a * b.
Proof. unfold size_of. simpl. lia. Qed.

Lemma reshape_batch (t : tensor) (B d : nat) (rest : list nat) :
  shape t = [B; d] -> size_of rest = d -> d <> 0 ->
  tf_reshape t ((-1)%Z :: map Z.of_nat rest) = Ok (mkT (B :: rest) (data t)).
Proof.
  intros Ht Hr Hd.
  rewrite tf_reshape_infer.
  - rewrite Ht, size_of_2, Hr. now rewrite Nat.div_mul.
  - now rewrite Hr.
  - rewrite Ht, size_of_2, Hr. apply Nat.Div0.mod_mul.
Qed.

(** The encoder's convolutions bring a batch of [B] images to [B] feature
    maps of 7 x 7 x 64, whatever the variables and the draws. *)
Lemma encoder_features_ok v r X B :
  shape X = [B; image_size_flat] ->
  exists X2 layer,
    shape X2 = [B; 7; 7; 64]
    /\ tf_layers_conv2d (enc_conv3 v) X2 64 4 1 (Some (leakyReLU 0.3)) = Ok layer
    /\ shape layer = [B; 7; 7; 64]
    /\ encoder_features v r X
       = Ok (mkT [B; 3136] (data (tf_nn_dropout (enc_keep3 r) layer keep_prob))).
Proof.
  intros HX. unfold encoder_features.
  change [(-1)%Z; Z.of_nat image_size; Z.of_nat image_size; Z.of_nat image_channel]
    with ((-1)%Z :: map Z.of_nat [image_size; image_size; image_channel]).
  rewrite (reshape_batch X B image_size_flat)
    by (try exact HX; try reflexivity; discriminate).
  cbn [rbind].
  destruct (conv2d_shape (enc_conv1 v) (enc_keep1 r)
              (mkT [B; image_size; image_size; image_channel] (data X))
              64 4 2 (Some (leakyReLU 0.3)) true B image_size image_size image_channel)
    as (t1 & E1 & S1); [auto with shapes | reflexivity |].
  rewrite E1. cbn [rbind].
  destruct (conv2d_shape (enc_conv2 v) (enc_keep2 r) t1
              64 4 2 (Some (leakyReLU 0.3)) true _ _ _ _
              (shape_preserving_leakyReLU _) S1) as (t2 & E2 & S2).
  rewrite E2. cbn [rbind].
  destruct (tf_layers_conv2d_shape (enc_conv3 v) t2
              64 4 1 (Some (leakyReLU 0.3)) _ _ _ _
              (shape_preserving_leakyReLU _) S2) as (t3 & E3 & S3).
  exists t2, t3. split; [exact S2|]. split; [exact E3|]. split; [exact S3|].
  unfold conv2d. rewrite E3. cbn [rbind].
  unfold flatten, tf_nn_dropout. rewrite shape_init, S3. reflexivity.
Qed.

(** The three outputs of the encoder, element by element. *)
Lemma encoder_ok v r X B :
  shape X = [B; image_size_flat] ->
  exists feat proj z mean stddev,
    encoder_features v r X = Ok feat
    /\ shape feat = [B; 3136]
    /\ tf_layers_dense (enc_mean v) feat n_latent None = Ok mean
    /\ encoder_stddev_projection v feat = Ok proj
    /\ encoder v r X = Ok (z, mean, stddev)
    /\ shape z = [B; n_latent] /\ shape mean = [B; n_latent]
    /\ shape stddev = [B; n_latent] /\ shape proj = [B; n_latent]
    /\ (forall k, k < B * n_latent -> item stddev k = (0.5 * item proj k)%R)
    /\ (forall k, k < B * n_latent ->
          item z k = (item mean k + enc_noise r k * exp (item stddev k))%R)
    /\ stddev = init [B; n_latent] (fun k => (0.5 * item proj k)%R)
    /\ z = init [B; n_latent] (fun k =>
              (item mean k + enc_noise r k * exp (item stddev k))%R).
Proof.
  intros HX.
  destruct (encoder_features_ok v r X B HX) as (X2 & layer & _ & _ & _ & EF).
  set (feat := mkT [B; 3136] (data (tf_nn_dropout (enc_keep3 r) layer keep_prob))) in *.
  assert (Sf : shape feat = [B; 3136]) by reflexivity.
  pose proof (tf_layers_dense_None (enc_mean v) feat n_latent B 3136 Sf) as EM.
  pose proof (tf_layers_dense_None (enc_stddev v) feat n_latent B 3136 Sf) as EP.
  match type of EM with _ = Ok ?m => set (mean := m) in * end.
  match type of EP with _ = Ok ?p => set (proj := p) in * end.
  set (stddev := init [B; n_latent] (fun k => (0.5 * item proj k)%R)).
  set (z := init [B; n_latent] (fun k =>
              (item mean k + enc_noise r k * exp (item stddev k))%R)).
  assert (Hsz : size_of [B; n_latent] = B * n_latent) by apply size_of_2.
  exists feat, proj, z, mean, stddev.
  repeat split; try assumption; try reflexivity.
  - unfold encoder. rewrite EF. cbn [rbind]. rewrite EM. cbn [rbind].
    unfold encoder_stddev_projection. rewrite EP. cbn [rbind].
    unfold tf_multiply, tf_add. rewrite binop_scalar_l. cbn [rbind].
    rewrite binop_same_shape by reflexivity. cbn [rbind].
    rewrite binop_same_shape by reflexivity. cbn [rbind].
    f_equal. f_equal. f_equal.
    apply init_ext. intros k Hk.
    rewrite item_init by exact Hk.
    unfold tf_random_normal, tf_exp. rewrite item_init by exact Hk.
    rewrite item_tmap; [reflexivity|].
    simpl. unfold tabulate. rewrite length_map, length_seq. exact Hk.
  - intros k Hk. unfold stddev. rewrite item_init; [reflexivity | now rewrite Hsz].
  - intros k Hk. unfold z. rewrite item_init; [reflexivity | now rewrite Hsz].
Qed.

(** ** The decoder *)

Lemma dense_shape v X units act n d :
  shape_preserving act -> shape X = [n; d] ->
  exists t, dense v X units act = Ok t /\ shape t = [n; units].
Proof. apply tf_layers_dense_shape. Qed.

(** What the decoder does from the reshape into feature maps onwards: the
    32 numbers per example are regrouped into maps of 16 x 16 x 1, so 8
    examples make one map; a batch that is not a multiple of 8 is refused. *)
Lemma decoder_shape v r z B :
  shape z = [B; n_latent] ->
  (B mod 8 = 0 ->
     exists img, decoder v r z = Ok img /\ shape img = [B / 8; 28; 28; 1])
  /\ (B mod 8 <> 0 -> decoder v r z = Raise InvalidArgumentError).
Proof.
  intros Hz. unfold decoder.
  destruct (dense_shape (dec_dense v) z decoder_units (Some (leakyReLU 0.3))
              B n_latent (shape_preserving_leakyReLU _) Hz) as (t0 & E0 & S0).
  destruct (dense_shape (dec_dense_1 v) z (decoder_units * 2) (Some (leakyReLU 0.3))
              B n_latent (shape_preserving_leakyReLU _) Hz) as (t1 & E1 & S1).
  rewrite E0. cbn [rbind]. rewrite E1. cbn [rbind]. rewrite S1.
  change (nth 1 [B; decoder_units * 2] 0 / 2) with 16.
  change [(-1)%Z; Z.of_nat 16; Z.of_nat 16; Z.of_nat image_channel]
    with ((-1)%Z :: map Z.of_nat [16; 16; image_channel]).
  assert (Hsz : size_of (shape t1) = B * 32) by (rewrite S1; apply size_of_2).
  assert (Hk : size_of [16; 16; image_channel] = 8 * 32) by reflexivity.
  split.
  - intros HB.
    rewrite tf_reshape_infer.
    2: { rewrite Hk. discriminate. }
    2: { rewrite Hsz, Hk, Nat.Div0.mul_mod_distr_r, HB. reflexivity. }
    rewrite Hsz, Hk, Nat.Div0.div_mul_cancel_r by discriminate.
    cbn [rbind].
    destruct (conv2d_transpose_shape (dec_conv1 v) (dec_keep1 r)
                (mkT [B / 8; 16; 16; image_channel] (data t1)) 64 4 2 tf_nn_relu true
                (B / 8) 16 16 image_channel shape_preserving_relu eq_refl)
      as (c1 & EC1 & SC1).
    rewrite EC1. cbn [rbind].
    destruct (conv2d_transpose_shape (dec_conv2 v) (dec_keep2 r) c1 64 4 1
                tf_nn_relu true _ _ _ _ shape_preserving_relu SC1)
      as (c2 & EC2 & SC2).
    rewrite EC2. cbn [rbind].
    destruct (conv2d_transpose_shape (dec_conv3 v) (fun _ => true) c2 64 4 1
                tf_nn_relu false _ _ _ _ shape_preserving_relu SC2)
      as (c3 & EC3 & SC3).
    rewrite EC3. cbn [rbind].
    unfold flatten. rewrite SC3. cbn [rbind].
    match goal with |- context [dense (dec_dense_2 v) ?f _ _] =>
      destruct (dense_shape (dec_dense_2 v) f image_size_flat tf_nn_sigmoid_act
                  (B / 8) _ shape_preserving_sigmoid eq_refl) as (d2 & ED & SD)
    end.
    rewrite ED. cbn [rbind].
    rewrite (reshape_batch d2 (B / 8) image_size_flat image_shape SD)
      by (try reflexivity; discriminate).
    eexists. split; reflexivity.
  - intros HB.
    rewrite tf_reshape_infer_fails; [reflexivity|].
    rewrite Hsz, Hk, Nat.Div0.mul_mod_distr_r. lia.
Qed.

(** ** The decoder on latent tensors of higher rank *)

Lemma dense_shape_last v X units act a lead d :
  shape_preserving act -> split_last (shape X) = Some (a :: lead, d) ->
  exists t, dense v X units act = Ok t /\ shape t = (a :: lead) ++ [units].
Proof.
  intros Hact HX. unfold dense, tf_layers_dense. rewrite HX.
  match goal with |- exists t, activate act ?u = _ /\ _ =>
    destruct (Hact u) as (t & E & S) end.
  exists t. split; [exact E | exact S].
Qed.

(** The dense layers work on the last axis, and the side of the feature
    maps is half of dimension 1 of the second dense layer's output: on a
    rank-3 [z] of shape (a, b, d) the maps are b/2 x b/2 x 1. *)
Lemma decoder_rank_3 v r z a b d :
  shape z = [a; b; d] ->
  b / 2 <> 0 -> (a * b * 32) mod (b / 2 * (b / 2)) = 0 ->
  exists img,
    decoder v r z = Ok img
    /\ shape img = [a * b * 32 / (b / 2 * (b / 2)); 28; 28; 1].
Proof.
  intros Hz Hm Hdiv. unfold decoder.
  assert (Hs : split_last (shape z) = Some ([a; b], d)) by (now rewrite Hz).
  destruct (dense_shape_last (dec_dense v) z decoder_units (Some (leakyReLU 0.3))
              a [b] d (shape_preserving_leakyReLU _) Hs) as (t0 & E0 & S0).
  destruct (dense_shape_last (dec_dense_1 v) z (decoder_units * 2)
              (Some (leakyReLU 0.3)) a [b] d (shape_preserving_leakyReLU _) Hs)
    as (t1 & E1 & S1).
  rewrite E0. cbn [rbind]. rewrite E1. cbn [rbind]. rewrite S1.
  cbn [app nth].
  change [(-1)%Z; Z.of_nat (b / 2); Z.of_nat (b / 2); Z.of_nat image_channel]
    with ((-1)%Z :: map Z.of_nat [b / 2; b / 2; image_channel]).
  assert (Hsz : size_of (shape t1) = a * b * 32).
  { rewrite S1. cbn [app size_of fold_right]. change (decoder_units * 2) with 32. nia. }
  assert (Hk : size_of [b / 2; b / 2; image_channel] = b / 2 * (b / 2)).
  { cbn [size_of fold_right]. change image_channel with 1. nia. }
  rewrite tf_reshape_infer.
  2: { rewrite Hk. nia. }
  2: { rewrite Hsz, Hk. exact Hdiv. }
  rewrite Hsz, Hk. cbn [rbind].
  set (q := a * b * 32 / (b / 2 * (b / 2))).
  destruct (conv2d_transpose_shape (dec_conv1 v) (dec_keep1 r)
              (mkT [q; b / 2; b / 2; image_channel] (data t1)) 64 4 2 tf_nn_relu true
              q (b / 2) (b / 2) image_channel shape_preserving_relu eq_refl)
    as (c1 & EC1 & SC1).
  rewrite EC1. cbn [rbind].
  destruct (conv2d_transpose_shape (dec_conv2 v) (dec_keep2 r) c1 64 4 1
              tf_nn_relu true _ _ _ _ shape_preserving_relu SC1)
    as (c2 & EC2 & SC2).
  rewrite EC2. cbn [rbind].
  destruct (conv2d_transpose_shape (dec_conv3 v) (fun _ => true) c2 64 4 1
              tf_nn_relu false _ _ _ _ shape_preserving_relu SC2)
    as (c3 & EC3 & SC3).
  rewrite EC3. cbn [rbind].
  unfold flatten. rewrite SC3. cbn [rbind].
  match goal with |- context [dense (dec_dense_2 v) ?f _ _] =>
    destruct (dense_shape (dec_dense_2 v) f image_size_flat tf_nn_sigmoid_act
                q _ shape_preserving_sigmoid eq_refl) as (d2 & ED & SD)
  end.
  rewrite ED. cbn [rbind].
  rewrite (reshape_batch d2 q image_size_flat image_shape SD)
    by (try reflexivity; discriminate).
  eexists. split; reflexivity.
Qed.

Example decoder_rank_3_example v r z :
  shape z = [16; 32; n_latent] ->
  exists img, decoder v r z = Ok img /\ shape img = [64; 28; 28; 1].
Proof.
  intros Hz.
  destruct (decoder_rank_3 v r z 16 32 n_latent Hz) as (img & E & S);
    [discriminate | reflexivity |].
  exists img. split; [exact E | exact S].
Qed.

(** ** C1: shapes through the encoder and the decoder *)

(** C1 (the code departs from it).  For a batch of 24 images the encoder
    returns [z], [mean] and [stddev] of shape (24, 8); the decoder applied to
    that [z] returns a tensor of shape (3, 28, 28, 1), not (24, 28, 28, 1):
    its reshape to maps of 16 x 16 x 1 packs eight examples into one. *)
Theorem C1_shapes_batch_24 ev dv er dr X :
  shape X = [24; image_size_flat] ->
  exists z mean stddev img,
    encoder ev er X = Ok (z, mean, stddev)
    /\ shape mean = [24; 8] /\ shape stddev = [24; 8] /\ shape z = [24; 8]
    /\ decoder dv dr z = Ok img
    /\ shape img = [3; 28; 28; 1].
Proof.
  intros HX.
  destruct (encoder_ok ev er X 24 HX)
    as (feat & proj & z & mean & stddev & _ & _ & _ & _ & E & Sz & Sm & Ss & _).
  destruct (decoder_shape dv dr z 24 Sz) as [Hok _].
  destruct (Hok eq_refl) as (img & ED & SI).
  exists z, mean, stddev, img. repeat split; assumption.
Qed.

Lemma C1_shapes_batch_24_witness :
  shape (black 24) = [24; image_size_flat]
  /\ exists z mean stddev img,
       encoder zero_encoder keep_all (black 24) = Ok (z, mean, stddev)
       /\ shape mean = [24; 8] /\ shape stddev = [24; 8] /\ shape z = [24; 8]
       /\ decoder zero_decoder keep_all_dec z = Ok img
       /\ shape img = [3; 28; 28; 1].
Proof.
  split.
  - reflexivity.
  - apply (C1_shapes_batch_24 zero_encoder zero_decoder keep_all keep_all_dec (black 24)).
    reflexivity.
Defined.

(** For every batch size the decoder's output has [B / 8] images, and there
    is no output at all unless 8 divides [B]. *)
Lemma decoder_output_batch ev dv er dr X B :
  shape X = [B; image_size_flat] ->
  exists z mean stddev,
    encoder ev er X = Ok (z, mean, stddev)
    /\ shape z = [B; n_latent]
    /\ (B mod 8 = 0 ->
          exists img, decoder dv dr z = Ok img /\ shape img = [B / 8; 28; 28; 1])
    /\ (B mod 8 <> 0 -> decoder dv dr z = Raise InvalidArgumentError).
Proof.
  intros HX.
  destruct (encoder_ok ev er X B HX)
    as (feat & proj & z & mean & stddev & _ & _ & _ & _ & E & Sz & _).
  exists z, mean, stddev. split; [exact E|]. split; [exact Sz|].
  apply decoder_shape. exact Sz.
Qed.

Lemma decoder_never_returns_the_batch_shape dv dr z B img :
  0 < B -> shape z = [B; n_latent] -> decoder dv dr z = Ok img ->
  shape img <> [B; 28; 28; 1].
Proof.
  intros HB Hz E.
  destruct (decoder_shape dv dr z B Hz) as [Hok Hfail].
  destruct (Nat.eq_dec (B mod 8) 0) as [H0|H0].
  - destruct (Hok H0) as (img' & E' & S'). rewrite E in E'. injection E' as <-.
    rewrite S'. intros Heq.
    apply (f_equal (hd 0)) in Heq. cbn [hd] in Heq.
    pose proof (Nat.div_lt B 8 HB). lia.
  - rewrite (Hfail H0) in E. discriminate.
Qed.

(** ** The loss *)

Lemma item_tmap_0 (g : R -> R) (t : tensor) (k : nat) :
  g 0%R = 0%R -> item (tmap g t) k = g (item t k).
Proof.
  intros Hg. unfold item, tmap. simpl.
  rewrite <- Hg at 1. apply map_nth.
Qed.

Lemma tf_reduce_sum_axis1_rank2 (t : tensor) (a p : nat) :
  shape t = [a; p] ->
  tf_reduce_sum_axis1 t
  = Ok (init [a] (fun i => sum_upto p (fun j => item t (i * p + j)))).
Proof.
  intros Ht. unfold tf_reduce_sum_axis1. rewrite Ht. f_equal.
  apply init_ext. intros k _. apply sum_upto_ext. intros j _.
  cbn [size_of fold_right]. rewrite Nat.div_1_r, Nat.mod_1_r. f_equal. lia.
Qed.

Lemma latent_loss_eq (mean stddev : tensor) (B L : nat) :
  shape mean = [B; L] -> shape stddev = [B; L] ->
  latent_loss mean stddev
  = Ok (init [B] (fun i =>
          (-0.5 * sum_upto L (fun j =>
                    kl_term (item mean (i * L + j)) (item stddev (i * L + j))))%R)).
Proof.
  intros Hm Hs. unfold latent_loss, tf_multiply, tf_add, tf_subtract.
  rewrite binop_scalar_l. cbn [rbind].
  rewrite binop_scalar_l. cbn [rbind].
  rewrite binop_same_shape by (cbn [shape init tf_square tmap]; congruence).
  cbn [rbind].
  rewrite binop_same_shape by reflexivity. cbn [rbind].
  rewrite !shape_init, Hs.
  rewrite (tf_reduce_sum_axis1_rank2 _ B L) by reflexivity. cbn [rbind].
  rewrite binop_scalar_l, shape_init.
  f_equal. apply init_ext. intros i Hi.
  assert (HB : i < B) by (now rewrite size_of_1 in Hi).
  rewrite item_init by exact Hi. f_equal.
  apply sum_upto_ext. intros j Hj.
  assert (Hk : i * L + j < size_of [B; L]) by (rewrite size_of_2; nia).
  rewrite item_init by exact Hk. rewrite item_init by exact Hk.
  rewrite item_init by exact Hk. rewrite item_init by exact Hk.
  unfold tf_square, tf_exp.
  rewrite item_tmap_0 by lra.
  rewrite item_tmap
    by (cbn [data init]; unfold tabulate; rewrite length_map, length_seq; exact Hk).
  rewrite item_init by exact Hk.
  unfold kl_term.
  replace (2.0 * item stddev (i * L + j))%R with (2 * item stddev (i * L + j))%R by lra.
  lra.
Qed.






Lemma kl_term_0 : kl_term 0 0 = 0%R.
Proof. unfold kl_term. rewrite Rmult_0_r, exp_0. lra. Qed.

(** ** C3: the KL term of the graph *)

(** C3.  For a batch of [B] images the encoder returns [(z, mean, stddev)]
    and the KL loss computed from its second and third outputs is, for every
    example [i], -0.5 times the sum over the latent dimensions of
    [1 + 2*stddev - mean^2 - exp(2*stddev)]. *)
Theorem C3_latent_loss_formula ev er X B :
  shape X = [B; image_size_flat] ->
  exists z mean stddev kl,
    encoder ev er X = Ok (z, mean, stddev)
    /\ latent_loss mean stddev = Ok kl
    /\ shape kl = [B]
    /\ forall i, i < B ->
         item kl i
         = (-0.5 * sum_upto n_latent (fun j =>
                     1 + 2 * item stddev (i * n_latent + j)
                     - item mean (i * n_latent + j) ^ 2
                     - exp (2 * item stddev (i * n_latent + j))))%R.
Proof.
  intros HX.
  destruct (encoder_ok ev er X B HX)
    as (feat & proj & z & mean & stddev & _ & _ & _ & _ & E & _ & Sm & Ss & _).
  exists z, mean, stddev. eexists.
  split; [exact E|]. split; [apply (latent_loss_eq mean stddev B n_latent Sm Ss)|].
  split; [reflexivity|].
  intros i Hi. rewrite item_init by (now rewrite size_of_1).
  f_equal. apply sum_upto_ext. intros j _. unfold kl_term. simpl pow. lra.
Qed.

Lemma C3_latent_loss_formula_witness :
  shape (black 1) = [1; image_size_flat]
  /\ exists z mean stddev kl,
       encoder zero_encoder keep_all (black 1) = Ok (z, mean, stddev)
       /\ latent_loss mean stddev = Ok kl
       /\ shape kl = [1]
       /\ forall i, i < 1 ->
            item kl i
            = (-0.5 * sum_upto n_latent (fun j =>
                        1 + 2 * item stddev (i * n_latent + j)
                        - item mean (i * n_latent + j) ^ 2
                        - exp (2 * item stddev (i * n_latent + j))))%R.
Proof.
  split.
  - reflexivity.
  - apply (C3_latent_loss_formula zero_encoder keep_all (black 1) 1). reflexivity.
Defined.

(** ** C8: the KL term of a standard normal *)

(** C8.  When every element of [mean] and of [stddev] is 0, the KL loss of
    every example is exactly 0. *)
Theorem C8_latent_loss_zero mean stddev B L :
  shape mean = [B; L] -> shape stddev = [B; L] ->
  (forall k, k < B * L -> item mean k = 0%R) ->
  (forall k, k < B * L -> item stddev k = 0%R) ->
  exists kl,
    latent_loss mean stddev = Ok kl
    /\ shape kl = [B]
    /\ forall i, i < B -> item kl i = 0%R.
Proof.
  intros Hm Hs Zm Zs. eexists.
  split; [apply (latent_loss_eq mean stddev B L Hm Hs)|]. split; [reflexivity|].
  intros i Hi. rewrite item_init by (now rewrite size_of_1).
  rewrite sum_upto_zero; [lra|].
  intros j Hj. rewrite Zm, Zs by nia. apply kl_term_0.
Qed.

Lemma C8_latent_loss_zero_witness :
  shape zero_latent = [1; n_latent]
  /\ (forall k, k < 1 * n_latent -> item zero_latent k = 0%R)
  /\ exists kl,
       latent_loss zero_latent zero_latent = Ok kl
       /\ shape kl = [1]
       /\ forall i, i < 1 -> item kl i = 0%R.
Proof.
  assert (Z : forall k, k < 1 * n_latent -> item zero_latent k = 0%R).
  { intros k Hk. do 8 (destruct k as [|k]; [reflexivity|]).
    unfold n_latent in Hk. lia. }
  split; [reflexivity|]. split; [exact Z|].
  apply (C8_latent_loss_zero zero_latent zero_latent 1 n_latent);
    [reflexivity | reflexivity | exact Z | exact Z].
Defined.

(** ** C10: the KL term is never negative *)



(** ** C9: the first dense layer of the decoder *)

(** C9.  The decoder computes its second dense layer from [z] and never
    reads the output of the first one: for every [z] its result is the rest
    of the decoder applied to the second dense layer of [z], and replacing
    the variables of the first dense layer by any others leaves the
    decoder's result unchanged. *)
Theorem C9_first_dense_unused v r z :
  decoder v r z
  = rbind (dense (dec_dense_1 v) z (decoder_units * 2) (Some (leakyReLU 0.3)))
          (decoder_tail v r)
  /\ forall d,
       decoder {| dec_dense := d; dec_dense_1 := dec_dense_1 v;
                  dec_conv1 := dec_conv1 v; dec_conv2 := dec_conv2 v;
                  dec_conv3 := dec_conv3 v; dec_dense_2 := dec_dense_2 v |} r z
       = decoder v r z.
Proof.
  split.
  - unfold decoder, dense, tf_layers_dense.
    destruct (split_last (shape z)) as [[[|a lead] d]|]; try reflexivity.
    cbn [activate]. rewrite !leakyReLU_eq. reflexivity.
  - intros d. unfold decoder, dense, tf_layers_dense.
    cbn [dec_dense dec_dense_1 dec_conv1 dec_conv2 dec_conv3 dec_dense_2].
    destruct (split_last (shape z)) as [[[|a lead] d0]|]; try reflexivity.
    cbn [activate]. rewrite !leakyReLU_eq. reflexivity.
Qed.

(** ** C2: the third output of the encoder *)

(** C2, as stated, fails: on one black image the projection is 2 in every
    latent dimension and the third output of the encoder is 1. *)
Lemma C2_counterexample : ~ stddev_is_raw_projection bias2_encoder keep_all (black 1).
Proof.
  intros H.
  destruct (encoder_ok bias2_encoder keep_all (black 1) 1 eq_refl)
    as (feat & proj & z & mean & stddev & EF & Sf & _ & EP & E & _ & _ & _ & _ & Hs & _).
  specialize (H feat proj z mean stddev EF EP E).
  specialize (Hs 0 ltac:(unfold n_latent; lia)).
  unfold encoder_stddev_projection in EP.
  rewrite (tf_layers_dense_None _ feat n_latent 1 3136 Sf) in EP.
  injection EP as <-.
  rewrite H in Hs. rewrite item_init in Hs by (rewrite size_of_2; unfold n_latent; lia).
  rewrite sum_upto_zero in Hs by (intros i _; cbn [bias2_encoder enc_stddev dense_kernel]; lra).
  cbn [bias2_encoder enc_stddev dense_bias] in Hs. lra.
Qed.

(** C2, amended.  The third output of the encoder is one half of the output
    of its linear projection; the latent is [z = mean + noise * exp(stddev)]
    with that third output, and the KL term is computed from the same
    tensor. *)
Theorem C2_stddev_and_sampling ev er X B :
  shape X = [B; image_size_flat] ->
  exists feat proj z mean stddev kl,
    encoder_features ev er X = Ok feat
    /\ encoder_stddev_projection ev feat = Ok proj
    /\ encoder ev er X = Ok (z, mean, stddev)
    /\ (forall k, k < B * n_latent -> item stddev k = (0.5 * item proj k)%R)
    /\ (forall k, k < B * n_latent ->
          item z k = (item mean k + enc_noise er k * exp (item stddev k))%R)
    /\ latent_loss mean stddev = Ok kl
    /\ (forall i, i < B ->
          item kl i
          = (-0.5 * sum_upto n_latent (fun j =>
                      kl_term (item mean (i * n_latent + j))
                              (item stddev (i * n_latent + j))))%R).
Proof.
  intros HX.
  destruct (encoder_ok ev er X B HX)
    as (feat & proj & z & mean & stddev & EF & _ & _ & EP & E & _ & Sm & Ss & _ & Hs & Hz & _).
  exists feat, proj, z, mean, stddev. eexists.
  split; [exact EF|]. split; [exact EP|]. split; [exact E|].
  split; [exact Hs|]. split; [exact Hz|].
  split; [apply (latent_loss_eq mean stddev B n_latent Sm Ss)|].
  intros i Hi. now rewrite item_init by (now rewrite size_of_1).
Qed.

Lemma C2_stddev_and_sampling_witness :
  shape (black 1) = [1; image_size_flat]
  /\ exists feat proj z mean stddev kl,
       encoder_features bias2_encoder keep_all (black 1) = Ok feat
       /\ encoder_stddev_projection bias2_encoder feat = Ok proj
       /\ encoder bias2_encoder keep_all (black 1) = Ok (z, mean, stddev)
       /\ (forall k, k < 1 * n_latent -> item stddev k = (0.5 * item proj k)%R)
       /\ (forall k, k < 1 * n_latent ->
             item z k = (item mean k + enc_noise keep_all k * exp (item stddev k))%R)
       /\ latent_loss mean stddev = Ok kl
       /\ (forall i, i < 1 ->
             item kl i
             = (-0.5 * sum_upto n_latent (fun j =>
                         kl_term (item mean (i * n_latent + j))
                                 (item stddev (i * n_latent + j))))%R).
Proof.
  split.
  - reflexivity.
  - apply (C2_stddev_and_sampling bias2_encoder keep_all (black 1) 1). reflexivity.
Defined.

(** The graph feeds the KL term with the encoder's own outputs. *)
Lemma graph_latent_loss v r batch f :
  graph v r batch = Ok f ->
  exists X, feed batch = Ok X
    /\ encoder (fst v) (fst r) X = Ok (f_z f, f_mean f, f_stddev f)
    /\ latent_loss (f_mean f) (f_stddev f) = Ok (f_latent_loss f).
Proof.
  unfold graph. intros H.
  destruct (feed batch) as [X|e] eqn:EX; cbn [rbind] in H; [|discriminate].
  destruct (encoder (fst v) (fst r) X) as [[[z mean] stddev]|e] eqn:EE;
    cbn [rbind] in H; [|discriminate].
  destruct (decoder (snd v) (snd r) z) as [img|e]; cbn [rbind] in H; [|discriminate].
  destruct (img_loss img X) as [il|e]; cbn [rbind] in H; [|discriminate].
  destruct (latent_loss mean stddev) as [ll|e] eqn:EL; cbn [rbind] in H; [|discriminate].
  destruct (loss img X mean stddev) as [l|e]; cbn [rbind] in H; [|discriminate].
  injection H as <-. exists X. cbn [f_z f_mean f_stddev f_latent_loss]. auto.
Qed.

(** ** C7: two runs of the encoder on the same batch *)

Lemma tf_layers_conv2d_zero_kernel v X filters ks s alpha n h w c :
  (forall di dj c0 f, conv_kernel v di dj c0 f = 0%R) ->
  shape X = [n; h; w; c] ->
  tf_layers_conv2d v X filters ks s (Some (leakyReLU alpha))
  = Ok (init [n; same_out h s; same_out w s; filters] (fun k =>
          Rmax (conv_bias v (k mod filters)) (conv_bias v (k mod filters) * alpha))).
Proof.
  intros Hk HX. unfold tf_layers_conv2d. rewrite HX. cbn [activate].
  rewrite leakyReLU_eq, shape_init. f_equal.
  apply init_ext. intros k Hlt. rewrite item_init by exact Hlt. cbv zeta.
  rewrite sum_upto_zero.
  - now rewrite Rplus_0_l.
  - intros di _. apply sum_upto_zero. intros dj _. apply sum_upto_zero.
    intros c0 _. rewrite Hk. lra.
Qed.

Lemma Ok_inj {A} (a b : A) : Ok a = Ok b -> a = b.
Proof. congruence. Qed.

Lemma item_data (s : list nat) (t : tensor) (k : nat) :
  item (mkT s (data t)) k = item t k.
Proof. reflexivity. Qed.

Lemma sum_encoder_features r X B :
  shape X = [B; image_size_flat] ->
  encoder_features sum_encoder r X
  = Ok (mkT [B; 3136]
          (data (tf_nn_dropout (enc_keep3 r)
                   (init [B; 7; 7; 64] (fun _ => Rmax 1 (1 * 0.3)))
                   keep_prob))).
Proof.
  intros HX.
  destruct (encoder_features_ok sum_encoder r X B HX) as (X2 & layer & S2 & E3 & _ & EF).
  rewrite (tf_layers_conv2d_zero_kernel _ X2 64 4 1 0.3 B 7 7 64) in E3
    by (try exact S2; reflexivity).
  apply Ok_inj in E3. subst layer. exact EF.
Qed.

Lemma sum_encoder_mean r X :
  shape X = [1; image_size_flat] ->
  exists z mean stddev,
    encoder sum_encoder r X = Ok (z, mean, stddev)
    /\ item mean 0
       = sum_upto 3136 (fun i =>
           Rmax 1 (1 * 0.3) / keep_prob * (if enc_keep3 r i then 1 else 0))%R.
Proof.
  intros HX.
  destruct (encoder_ok sum_encoder r X 1 HX)
    as (feat & proj & z & mean & stddev & EF & Sf & EM & _ & E & _).
  exists z, mean, stddev. split; [exact E|].
  rewrite (sum_encoder_features r X 1 HX) in EF. apply Ok_inj in EF. subst feat.
  rewrite (tf_layers_dense_None _ _ n_latent 1 3136 Sf) in EM.
  apply Ok_inj in EM. subst mean.
  rewrite item_init by (rewrite size_of_2; unfold n_latent; lia).
  cbn [sum_encoder enc_mean dense_kernel dense_bias].
  rewrite Rplus_0_r. apply sum_upto_ext. intros i Hi.
  rewrite Rmult_1_r.
  change (0 / n_latent * 3136 + i) with i.
  rewrite item_data. unfold tf_nn_dropout. rewrite shape_init.
  rewrite item_init by exact Hi. rewrite item_init by exact Hi. reflexivity.
Qed.

(** C7, as stated, fails: on one black image, a run that keeps every
    feature and a run whose last dropout keeps none return different
    [mean]s (positive in the first run, 0 in the second). *)
Lemma C7_counterexample :
  ~ two_runs_differ_only_in_z sum_encoder (black 1) keep_all drop_last.
Proof.
  intros H.
  destruct (sum_encoder_mean keep_all (black 1) eq_refl) as (z1 & m1 & s1 & E1 & V1).
  destruct (sum_encoder_mean drop_last (black 1) eq_refl) as (z2 & m2 & s2 & E2 & V2).
  destruct (H _ _ _ _ _ _ E1 E2) as (Hm & _).
  rewrite Hm in V1. rewrite V2 in V1.
  cbn [keep_all drop_last enc_keep3] in V1.
  rewrite sum_upto_zero in V1 by (intros; lra).
  rewrite sum_upto_const in V1.
  assert (0 < INR 3136)%R by (apply lt_0_INR; lia).
  assert (1 <= Rmax 1 (1 * 0.3))%R by apply Rmax_l.
  unfold keep_prob in V1.
  assert (0 < Rmax 1 (1 * 0.3) / 0.8 * 1)%R by (unfold Rdiv; nra).
  nra.
Qed.

(** C7, amended.  Two runs of the encoder on the same batch with the same
    dropout masks return the same [mean] and the same [stddev], whatever the
    noise; their [z] differ exactly at the positions where the two noise
    draws differ. *)
Theorem C7_two_runs ev X B k1 k2 k3 noise1 noise2 :
  shape X = [B; image_size_flat] ->
  exists z1 z2 mean stddev,
    encoder ev {| enc_keep1 := k1; enc_keep2 := k2; enc_keep3 := k3;
                  enc_noise := noise1 |} X = Ok (z1, mean, stddev)
    /\ encoder ev {| enc_keep1 := k1; enc_keep2 := k2; enc_keep3 := k3;
                     enc_noise := noise2 |} X = Ok (z2, mean, stddev)
    /\ shape mean = [B; n_latent]
    /\ shape z1 = [B; n_latent] /\ shape z2 = [B; n_latent]
    /\ forall k, k < B * n_latent ->
         item z1 k = (item mean k + noise1 k * exp (item stddev k))%R
         /\ item z2 k = (item mean k + noise2 k * exp (item stddev k))%R
         /\ (item z1 k = item z2 k <-> noise1 k = noise2 k).
Proof.
  intros HX.
  destruct (encoder_ok ev {| enc_keep1 := k1; enc_keep2 := k2; enc_keep3 := k3;
                             enc_noise := noise1 |} X B HX)
    as (feat & proj & z1 & mean & stddev & EF & _ & EM & EP & E1 & Sz1 & Sm & _ & _ & _
        & Hz1 & Hs1 & _).
  destruct (encoder_ok ev {| enc_keep1 := k1; enc_keep2 := k2; enc_keep3 := k3;
                             enc_noise := noise2 |} X B HX)
    as (feat' & proj' & z2 & mean' & stddev' & EF' & _ & EM' & EP' & E2 & Sz2 & _ & _ & _
        & _ & Hz2 & Hs2 & _).
  change (encoder_features ev {| enc_keep1 := k1; enc_keep2 := k2; enc_keep3 := k3;
                                 enc_noise := noise2 |} X)
    with (encoder_features ev {| enc_keep1 := k1; enc_keep2 := k2; enc_keep3 := k3;
                                 enc_noise := noise1 |} X) in EF'.
  rewrite EF in EF'. injection EF' as <-.
  rewrite EM in EM'. injection EM' as <-.
  rewrite EP in EP'. injection EP' as <-.
  rewrite <- Hs1 in Hs2. subst stddev'.
  exists z1, z2, mean, stddev.
  split; [exact E1|]. split; [exact E2|]. split; [exact Sm|].
  split; [exact Sz1|]. split; [exact Sz2|].
  intros k Hk. rewrite (Hz1 k Hk), (Hz2 k Hk). cbn [enc_noise].
  pose proof (exp_pos (item stddev k)) as Hpos.
  split; [reflexivity|]. split; [reflexivity|].
  split; intros Heq.
  - apply (Rmult_eq_reg_r (exp (item stddev k))); lra.
  - now rewrite Heq.
Qed.

Lemma C7_two_runs_witness :
  shape (black 1) = [1; image_size_flat]
  /\ exists z1 z2 mean stddev,
       encoder sum_encoder
         {| enc_keep1 := fun _ => true; enc_keep2 := fun _ => true;
            enc_keep3 := fun _ => true; enc_noise := fun _ => 0%R |} (black 1)
       = Ok (z1, mean, stddev)
       /\ encoder sum_encoder
            {| enc_keep1 := fun _ => true; enc_keep2 := fun _ => true;
               enc_keep3 := fun _ => true; enc_noise := fun _ => 1%R |} (black 1)
          = Ok (z2, mean, stddev)
       /\ shape mean = [1; n_latent]
       /\ shape z1 = [1; n_latent] /\ shape z2 = [1; n_latent]
       /\ forall k, k < 1 * n_latent ->
            item z1 k = (item mean k + 0 * exp (item stddev k))%R
            /\ item z2 k = (item mean k + 1 * exp (item stddev k))%R
            /\ (item z1 k = item z2 k <-> 0%R = 1%R).
Proof.
  split.
  - reflexivity.
  - apply (C7_two_runs sum_encoder (black 1) 1 (fun _ => true) (fun _ => true)
             (fun _ => true) (fun _ => 0%R) (fun _ => 1%R)).
    reflexivity.
Defined.

(** ** C5: the checkpoint cell *)

Lemma restores_app (t : list event) (p : string) :
  restores (t ++ [EvRestore p]) = S (restores t).
Proof.
  unfold restores. rewrite filter_app, length_app. simpl. lia.
Qed.

(** C5, as stated, fails: a checkpoint directory that holds exactly one
    entry is not empty, and the cell does not restore from it. *)
Lemma C5_counterexample :
  checkpoint_dir_nonempty (fresh_world one_file_fs)
  /\ ~ restore_triggered (fresh_world one_file_fs).
Proof.
  split.
  - exists "checkpoint"%string, []. reflexivity.
  - unfold restore_triggered. cbv. discriminate.
Qed.

Lemma checkpoint_cell_eq (w : world) :
  checkpoint_cell w
  = match fs w save_path with
    | Some FileNode => (Raise NotADirectoryError, w)
    | Some (DirNode entries) =>
        if 1 <? length entries then saver_restore save_path w else (Ok tt, w)
    | None => tf_gfile_MakeDirs save_path w
    end.
Proof.
  unfold checkpoint_cell, bind, tf_gfile_Exists, os_listdir.
  destruct (fs w save_path) as [[|entries]|] eqn:E; cbv beta iota; rewrite ?E;
    try reflexivity.
  unfold ret. destruct (1 <? length entries); reflexivity.
Qed.

(** C5, amended.  The cell calls the restore exactly when the checkpoint
    directory exists and lists more than one entry; when the directory does
    not exist the cell creates it (empty), restores nothing and succeeds. *)
Theorem C5_checkpoint_cell (w : world) :
  (restores (trace (snd (checkpoint_cell w))) = S (restores (trace w))
   <-> exists entries, fs w save_path = Some (DirNode entries) /\ 1 < length entries)
  /\ (fs w save_path = None ->
        fst (checkpoint_cell w) = Ok tt
        /\ fs (snd (checkpoint_cell w)) save_path = Some (DirNode [])
        /\ trace (snd (checkpoint_cell w)) = trace w).
Proof.
  rewrite checkpoint_cell_eq.
  destruct (fs w save_path) as [[|entries]|] eqn:E.
  - cbn [fst snd]. split; [|discriminate]. split.
    + intros H. exfalso. revert H. apply Nat.neq_succ_diag_r.
    + intros (es & H & _). discriminate.
  - destruct (1 <? length entries) eqn:L.
    + split; [|discriminate]. split.
      * intros _. exists entries. split; [reflexivity|]. now apply Nat.ltb_lt.
      * intros _. unfold saver_restore.
        destruct (checkpoints w save_path); cbn [fst snd with_vars with_trace trace];
          apply restores_app.
    + split; [|discriminate]. cbn [fst snd]. split.
      * intros H. exfalso. revert H. apply Nat.neq_succ_diag_r.
      * intros (es & H & Hlen). injection H as <-.
        apply Nat.ltb_ge in L. lia.
  - unfold tf_gfile_MakeDirs. cbn [fst snd]. split.
    + split.
      * intros H. exfalso. revert H. apply Nat.neq_succ_diag_r.
      * intros (es & H & _). discriminate.
    + intros _. cbn [with_fs fs trace]. rewrite String.eqb_refl. auto.
Qed.

(** The other cases of the cell: a path that is a file makes the listing
    fail, and a directory with at most one entry is left alone. *)
Lemma checkpoint_cell_file (w : world) :
  fs w save_path = Some FileNode ->
  checkpoint_cell w = (Raise NotADirectoryError, w).
Proof.
  intros E. rewrite checkpoint_cell_eq. now rewrite E.
Qed.

Lemma checkpoint_cell_small_dir (w : world) (entries : list string) :
  fs w save_path = Some (DirNode entries) -> length entries <= 1 ->
  checkpoint_cell w = (Ok tt, w).
Proof.
  intros E L. rewrite checkpoint_cell_eq, E. apply Nat.ltb_ge in L. now rewrite L.
Qed.

(** ** Broadcasting in the reconstruction loss *)

(** One row against [b] rows: the row is paired with each of them. *)
Lemma binop_row_broadcast (f : R -> R -> R) (x y : tensor) (b p : nat) :
  shape x = [1; p] -> shape y = [b; p] ->
  binop f x y = Ok (init [b; p] (fun k => f (item x (k mod p)) (item y k))).
Proof.
  intros Hx Hy. unfold binop. rewrite Hx, Hy.
  cbn [rev app broadcast_shape]. rewrite broadcast_dim_same.
  assert (Hd : broadcast_dim 1 b = Some b).
  { unfold broadcast_dim. destruct (1 =? b) eqn:E; [|reflexivity].
    apply Nat.eqb_eq in E. now subst b. }
  rewrite Hd. cbn [rev app]. f_equal. apply init_ext. intros k Hk.
  rewrite (broadcast_index_same [p; b]) by (rewrite size_of_2 in *; lia).
  cbn [broadcast_index]. rewrite Nat.eqb_refl.
  destruct (p =? 1) eqn:E.
  - apply Nat.eqb_eq in E. subst p. rewrite Nat.mod_1_r. do 2 f_equal.
  - do 2 f_equal. lia.
Qed.

(** A single reconstructed image is compared with every target. *)
Lemma img_loss_one_image (img y : tensor) (B : nat) :
  shape img = 1 :: image_shape -> shape y = [B; image_size_flat] ->
  img_loss img y
  = Ok (init [B] (fun i =>
          sum_upto image_size_flat (fun j =>
            (item img j - item y (i * image_size_flat + j))
            * (item img j - item y (i * image_size_flat + j)))%R)).
Proof.
  intros Hi Hy. unfold img_loss.
  change [(-1)%Z; Z.of_nat image_size_flat]
    with ((-1)%Z :: map Z.of_nat [image_size_flat]).
  rewrite tf_reshape_infer; rewrite ?Hi; try reflexivity; try discriminate.
  change (size_of (1 :: image_shape) / size_of [image_size_flat]) with 1.
  cbn [rbind]. unfold tf_squared_difference.
  rewrite (binop_row_broadcast _ _ y B image_size_flat) by (try reflexivity; exact Hy).
  cbn [rbind].
  rewrite (tf_reduce_sum_axis1_rank2 _ B image_size_flat) by reflexivity.
  f_equal. apply init_ext. intros i HiB. rewrite size_of_1 in HiB.
  apply sum_upto_ext. intros j Hj.
  rewrite item_init by (rewrite size_of_2; nia).
  rewrite item_data.
  replace ((i * image_size_flat + j) mod image_size_flat) with j; [reflexivity|].
  rewrite Nat.add_comm, Nat.Div0.mod_add. symmetry. now apply Nat.mod_small.
Qed.

(** ** The graph on a batch *)

(** The reconstruction loss pairs [B / 8] reconstructed images with [B]
    targets: a session run of the whole graph fails for every batch size
    other than 8 (and 0). *)
Lemma graph_raises v r batch B :
  shape batch = [B; image_size_flat] -> B <> 0 -> B <> 8 ->
  graph v r batch = Raise InvalidArgumentError.
Proof.
  intros Hb B0 B8. unfold graph, feed. rewrite Hb, Nat.eqb_refl. cbn [rbind].
  destruct (encoder_ok (fst v) (fst r) batch B Hb)
    as (feat & proj & z & mean & stddev & _ & _ & _ & _ & E & Sz & _).
  rewrite E. cbn [rbind].
  destruct (decoder_shape (snd v) (snd r) z B Sz) as [Hok Hfail].
  destruct (Nat.eq_dec (B mod 8) 0) as [H0|H0].
  - destruct (Hok H0) as (img & ED & SI). rewrite ED. cbn [rbind].
    unfold img_loss.
    change [(-1)%Z; Z.of_nat image_size_flat]
      with ((-1)%Z :: map Z.of_nat [image_size_flat]).
    rewrite tf_reshape_infer.
    2: { discriminate. }
    2: { rewrite SI. change (size_of [B / 8; 28; 28; 1]) with (B / 8 * image_size_flat).
         rewrite size_of_1. apply Nat.Div0.mod_mul. }
    rewrite SI. change (size_of [B / 8; 28; 28; 1]) with (B / 8 * image_size_flat).
    rewrite size_of_1, Nat.div_mul by discriminate. cbn [rbind].
    unfold tf_squared_difference, binop. cbn [shape]. rewrite Hb.
    cbn [rev app broadcast_shape]. rewrite broadcast_dim_same.
    unfold broadcast_dim.
    assert (B / 8 <> B) by (pose proof (Nat.div_lt B 8); lia).
    assert (B / 8 <> 1).
    { intros H1. pose proof (Nat.div_mod_eq B 8). lia. }
    assert (B <> 1) by (intros ->; discriminate).
    repeat match goal with
    | |- context [?a =? ?b] =>
        let Hn := fresh in
        assert (Hn : (a =? b) = false) by (apply Nat.eqb_neq; assumption);
        rewrite Hn; clear Hn
    end.
    reflexivity.
  - rewrite (Hfail H0). reflexivity.
Qed.

Lemma graph_raises_batch_size v r batch :
  shape batch = [batch_size; image_size_flat] ->
  graph v r batch = Raise InvalidArgumentError.
Proof. intros H. apply (graph_raises v r batch batch_size H); discriminate. Qed.

(** A batch of 8 is the one size on which the graph runs: the decoder then
    returns a single image, and the reconstruction loss of every example
    compares that one image with the example's target. *)
Lemma graph_batch_8 v r batch :
  shape batch = [8; image_size_flat] ->
  exists f,
    graph v r batch = Ok f
    /\ shape (f_z f) = [8; n_latent]
    /\ shape (f_img f) = [1; 28; 28; 1]
    /\ forall i, i < 8 ->
         item (f_img_loss f) i
         = sum_upto image_size_flat (fun j =>
             (item (f_img f) j - item batch (i * image_size_flat + j))
             * (item (f_img f) j - item batch (i * image_size_flat + j)))%R.
Proof.
  intros Hb. unfold graph, feed. rewrite Hb, Nat.eqb_refl. cbn [rbind].
  destruct (encoder_ok (fst v) (fst r) batch 8 Hb)
    as (feat & proj & z & mean & stddev & _ & _ & _ & _ & E & Sz & Sm & Ss & _).
  rewrite E. cbn [rbind].
  destruct (decoder_shape (snd v) (snd r) z 8 Sz) as [Hok _].
  destruct (Hok eq_refl) as (img & ED & SI). rewrite ED. cbn [rbind].
  change [8 / 8; 28; 28; 1] with (1 :: image_shape) in SI.
  unfold loss.
  rewrite (img_loss_one_image img batch 8 SI Hb).
  rewrite (latent_loss_eq mean stddev 8 n_latent Sm Ss). cbn [rbind].
  unfold tf_add. rewrite binop_same_shape by reflexivity. cbn [rbind].
  eexists. split; [reflexivity|]. cbn [f_z f_img f_img_loss].
  split; [exact Sz|]. split; [exact SI|].
  intros i Hi. rewrite item_init by (now rewrite size_of_1). reflexivity.
Qed.

(** The two losses and their mean on a batch of 8. *)
Lemma graph_batch_8_losses v r batch :
  shape batch = [8; image_size_flat] ->
  exists f,
    graph v r batch = Ok f
    /\ shape (f_img f) = [1; 28; 28; 1]
    /\ shape (f_img_loss f) = [8]
    /\ shape (f_latent_loss f) = [8]
    /\ (forall i, i < 8 ->
          item (f_img_loss f) i
          = sum_upto image_size_flat (fun j =>
              (item (f_img f) j - item batch (i * image_size_flat + j))
              * (item (f_img f) j - item batch (i * image_size_flat + j)))%R)
    /\ item (f_loss f) 0
       = (sum_upto 8 (fun i => item (f_img_loss f) i + item (f_latent_loss f) i)
          / INR 8)%R.
Proof.
  intros Hb. unfold graph, feed. rewrite Hb, Nat.eqb_refl. cbn [rbind].
  destruct (encoder_ok (fst v) (fst r) batch 8 Hb)
    as (feat & proj & z & mean & stddev & _ & _ & _ & _ & E & Sz & Sm & Ss & _).
  rewrite E. cbn [rbind].
  destruct (decoder_shape (snd v) (snd r) z 8 Sz) as [Hok _].
  destruct (Hok eq_refl) as (img & ED & SI). rewrite ED. cbn [rbind].
  change [8 / 8; 28; 28; 1] with (1 :: image_shape) in SI.
  unfold loss.
  rewrite (img_loss_one_image img batch 8 SI Hb).
  rewrite (latent_loss_eq mean stddev 8 n_latent Sm Ss). cbn [rbind].
  unfold tf_add. rewrite binop_same_shape by reflexivity. cbn [rbind].
  eexists. split; [reflexivity|]. cbn [f_img f_img_loss f_latent_loss f_loss].
  split; [exact SI|]. split; [reflexivity|]. split; [reflexivity|]. split.
  - intros i Hi. rewrite item_init by (now rewrite size_of_1). reflexivity.
  - unfold tf_reduce_mean. rewrite !shape_init, size_of_1.
    change (item (scalar ?c) 0) with c. cbv beta.
    match goal with
    | |- (sum_upto 8 ?f / _ = sum_upto 8 ?g / _)%R =>
        rewrite (sum_upto_ext 8 f g); [reflexivity|]
    end.
    intros i Hi. rewrite item_init by (now rewrite size_of_1). reflexivity.
Qed.

(** ** C4: reconstruction loss and total loss *)

(** C4 (the code departs from it).  On a batch that is not empty the graph
    never computes the sum of squared differences between the i-th
    reconstructed image and the i-th target: for every batch size other
    than 8, the notebook's 24 included, the session run raises and there is
    no loss at all; on a batch of 8 the decoder returns one image and the
    reconstruction loss of example [i] is the sum over the pixels of the
    squared difference between that one image and target [i].  The total
    loss, when there is one, is the mean over the batch of reconstruction
    loss plus KL loss. *)
Theorem C4_loss_on_a_batch v r batch B :
  shape batch = [B; image_size_flat] -> B <> 0 ->
  (B <> 8 -> graph v r batch = Raise InvalidArgumentError)
  /\ (B = 8 ->
        exists f,
          graph v r batch = Ok f
          /\ shape (f_img f) = [1; 28; 28; 1]
          /\ shape (f_img_loss f) = [8]
          /\ (forall i, i < 8 ->
                item (f_img_loss f) i
                = sum_upto image_size_flat (fun j =>
                    (item (f_img f) j - item batch (i * image_size_flat + j)) ^ 2)%R)
          /\ item (f_loss f) 0
             = (sum_upto 8 (fun i => item (f_img_loss f) i + item (f_latent_loss f) i)
                / INR 8)%R).
Proof.
  intros Hb B0. split.
  - intros B8. exact (graph_raises v r batch B Hb B0 B8).
  - intros ->.
    destruct (graph_batch_8_losses v r batch Hb) as (f & G & SI & Sil & _ & Hil & Hl).
    exists f. split; [exact G|]. split; [exact SI|]. split; [exact Sil|].
    split; [|exact Hl].
    intros i Hi. rewrite (Hil i Hi). apply sum_upto_ext. intros j _. simpl pow. lra.
Qed.

Lemma C4_loss_on_a_batch_witness :
  shape (black batch_size) = [batch_size; image_size_flat]
  /\ batch_size <> 0
  /\ (batch_size <> 8 ->
        graph (zero_encoder, zero_decoder) (keep_all, keep_all_dec) (black batch_size)
        = Raise InvalidArgumentError)
  /\ (batch_size = 8 ->
        exists f,
          graph (zero_encoder, zero_decoder) (keep_all, keep_all_dec) (black batch_size)
          = Ok f
          /\ shape (f_img f) = [1; 28; 28; 1]
          /\ shape (f_img_loss f) = [8]
          /\ (forall i, i < 8 ->
                item (f_img_loss f) i
                = sum_upto image_size_flat (fun j =>
                    (item (f_img f) j
                     - item (black batch_size) (i * image_size_flat + j)) ^ 2)%R)
          /\ item (f_loss f) 0
             = (sum_upto 8 (fun i => item (f_img_loss f) i + item (f_latent_loss f) i)
                / INR 8)%R).
Proof.
  assert (H0 : batch_size <> 0) by discriminate.
  split; [reflexivity|]. split; [exact H0|].
  exact (C4_loss_on_a_batch (zero_encoder, zero_decoder) (keep_all, keep_all_dec)
           (black batch_size) batch_size eq_refl H0).
Defined.

(** ** C6: the logging statement of the training loop *)

(** No cell of the notebook assigns to [start_time]. *)
Lemma start_time_never_assigned :
  existsb (String.eqb "start_time") assigned_names = false.
Proof. reflexivity. Qed.

Section TrainingFacts.

Variable minimize : model_vars -> run_draws -> tensor -> model_vars.
Variable format_float : string -> R -> string.
Variable str : pyval -> string.

(** The format string itself is refused on the values the loop passes:
    the second field formats an array with [.2f]. *)
Lemma str_format_arrays (l : R) (il ll m s : tensor) (d : pyval) :
  str_format format_float str log_template
    [PyFloat l; PyArray il; PyArray ll; PyArray m; PyArray s; d]
  = Raise TypeError.
Proof. reflexivity. Qed.

(** Even on five floats it is refused, at the field [{.2f}]. *)
Lemma str_format_floats (a1 a2 a3 a4 a5 : R) (d : pyval) :
  str_format format_float str log_template
    [PyFloat a1; PyFloat a2; PyFloat a3; PyFloat a4; PyFloat a5; d]
  = Raise (AttributeError "2f").
Proof. reflexivity. Qed.

(** The statement reads [start_time], which no cell binds. *)
Lemma log_statement_raises (w : world) :
  lookup "start_time" (env w) = None ->
  exists e w',
    log_statement format_float str w = (Raise e, w')
    /\ stdout w' = stdout w.
Proof.
  intros Hs. unfold log_statement, bind, load_name, datetime_now.
  repeat match goal with
  | |- context [lookup ?n (env w)] =>
      lazymatch n with
      | "start_time"%string => fail
      | _ => destruct (lookup n (env w)); [|eexists; eexists; split; reflexivity]
      end
  end.
  cbn [with_readings env]. rewrite Hs.
  eexists. eexists. split; reflexivity.
Qed.

Lemma log_statement_NameError (w : world) (a1 a2 a3 a4 a5 : pyval) :
  lookup "_loss" (env w) = Some a1 ->
  lookup "_img_loss" (env w) = Some a2 ->
  lookup "_latent_loss" (env w) = Some a3 ->
  lookup "_mean" (env w) = Some a4 ->
  lookup "_stddev" (env w) = Some a5 ->
  lookup "start_time" (env w) = None ->
  log_statement format_float str w
  = (Raise (NameError "start_time"), with_readings w (S (readings w))).
Proof.
  intros H1 H2 H3 H4 H5 Hs. unfold log_statement, bind, load_name, datetime_now.
  rewrite H1, H2, H3, H4, H5. cbn [with_readings env]. now rewrite Hs.
Qed.

End TrainingFacts.

Lemma bind_ok {A B} (m : M A) (k : A -> M B) (w w' : world) (a : A) :
  m w = (Ok a, w') -> bind m k w = k a w'.
Proof. intros H. unfold bind. now rewrite H. Qed.

Lemma bind_raise {A B} (m : M A) (k : A -> M B) (w w' : world) (e : exn) :
  m w = (Raise e, w') -> bind m k w = (Raise e, w').
Proof. intros H. unfold bind. now rewrite H. Qed.

Section TrainingLoop.

Variable minimize : model_vars -> run_draws -> tensor -> model_vars.
Variable format_float : string -> R -> string.
Variable str : pyval -> string.

(** The logging block never gets to write: its session run fails, or its
    last statement raises [NameError]. *)
Lemma log_block_raises (w : world) (batch : tensor) :
  lookup "start_time" (env w) = None ->
  exists e w',
    log_block format_float str batch w = (Raise e, w')
    /\ stdout w' = stdout w
    /\ (forall f, graph (vars w) (rng w (runs w)) batch = Ok f ->
          e = NameError "start_time").
Proof.
  intros Hs. unfold log_block.
  destruct (graph (vars w) (rng w (runs w)) batch) as [f|e] eqn:G.
  - rewrite (bind_ok _ _ w (with_runs w (S (runs w))) f)
      by (unfold sess_run; now rewrite G).
    unfold bind, store_name. cbv beta iota.
    erewrite log_statement_NameError; try reflexivity.
    + eexists. eexists. split; [reflexivity|]. split; [reflexivity|]. reflexivity.
    + cbn. exact Hs.
  - exists e. eexists. split.
    + apply bind_raise. unfold sess_run. rewrite G. reflexivity.
    + split; [reflexivity|]. discriminate.
Qed.

Lemma iteration_raises (w : world) (i : nat) :
  i mod log_step = 0 ->
  lookup "start_time" (env w) = None ->
  exists e w',
    iteration minimize format_float str i w = (Raise e, w')
    /\ stdout w' = stdout w.
Proof.
  intros Hi Hs. unfold iteration.
  rewrite (bind_ok _ _ w (with_drawn w (S (drawn w))) (batches w (drawn w)))
    by reflexivity.
  set (batch := batches w (drawn w)).
  set (w1 := with_drawn w (S (drawn w))).
  rewrite (bind_ok _ _ w1 (with_env w1 (("batch"%string, PyArray batch) :: env w1)) tt)
    by reflexivity.
  set (w2 := with_env w1 _).
  destruct (sess_run_train_step minimize batch w2) as [[[]|e] w3] eqn:T.
  - rewrite (bind_ok _ _ w2 w3 tt T).
    apply Nat.eqb_eq in Hi. rewrite Hi.
    assert (Hs3 : lookup "start_time" (env w3) = None).
    { unfold sess_run_train_step in T.
      destruct (graph (vars w2) (rng w2 (runs w2)) batch);
        [injection T as <-; exact Hs | discriminate]. }
    assert (Ho3 : stdout w3 = stdout w).
    { unfold sess_run_train_step in T.
      destruct (graph (vars w2) (rng w2 (runs w2)) batch);
        [injection T as <-; reflexivity | discriminate]. }
    destruct (log_block_raises w3 batch Hs3) as (e & w4 & E & Ho & _).
    exists e, w4. split.
    + apply bind_raise. exact E.
    + congruence.
  - exists e, w3. split.
    + apply bind_raise. exact T.
    + unfold sess_run_train_step in T.
      destruct (graph (vars w2) (rng w2 (runs w2)) batch);
        [discriminate | injection T as _ <-; reflexivity].
Qed.

Lemma training_cell_first_iteration (w : world) :
  training_cell minimize format_float str w
  = (let w1 := with_readings w (S (readings w)) in
     let w2 := with_env w1 (("train_start"%string,
                             PyDatetime (wall_clock w (readings w))) :: env w1) in
     bind (iteration minimize format_float str 0)
          (fun _ => for_range (seq 1 (iterations - 1))
                      (iteration minimize format_float str)) w2).
Proof. reflexivity. Qed.

(** C6 (the code departs from it).  The training cell never writes a log
    line: whatever the data, the optimiser and the formatting, once
    [start_time] is unbound (no cell binds it) the cell ends with an
    exception in its first iteration and the console is as it was. *)
Theorem C6_training_cell_never_logs (w : world) :
  lookup "start_time" (env w) = None ->
  exists e w',
    training_cell minimize format_float str w = (Raise e, w')
    /\ stdout w' = stdout w.
Proof.
  intros Hs. rewrite training_cell_first_iteration. cbv zeta.
  match goal with |- context [bind _ _ ?w2] =>
    destruct (iteration_raises w2 0 eq_refl) as (e & w' & E & Ho) end.
  - cbn [with_env env with_readings lookup String.eqb Ascii.eqb Bool.eqb].
    exact Hs.
  - exists e, w'. split.
    + apply bind_raise. exact E.
    + rewrite Ho. reflexivity.
Qed.

(** On the batches the data set delivers, the cell already fails in its
    first training step, on the shapes of the reconstruction loss. *)
Lemma training_cell_batch_size (w : world) :
  shape (batches w (drawn w)) = [batch_size; image_size_flat] ->
  exists w',
    training_cell minimize format_float str w = (Raise InvalidArgumentError, w')
    /\ stdout w' = stdout w /\ vars w' = vars w.
Proof.
  intros Hb. rewrite training_cell_first_iteration. cbv zeta.
  eexists. split.
  - apply bind_raise. unfold iteration.
    erewrite bind_ok by reflexivity.
    erewrite bind_ok by reflexivity.
    apply bind_raise. unfold sess_run_train_step.
    cbn [with_env with_drawn with_readings vars rng runs batches drawn].
    rewrite graph_raises_batch_size by exact Hb. reflexivity.
  - split; reflexivity.
Qed.

End TrainingLoop.

Lemma C6_training_cell_never_logs_witness :
  lookup "start_time" (env (fresh_world (fun _ => None))) = None
  /\ exists e w',
       training_cell no_update no_format no_str (fresh_world (fun _ => None))
       = (Raise e, w')
       /\ stdout w' = stdout (fresh_world (fun _ => None)).
Proof.
  split.
  - reflexivity.
  - apply (C6_training_cell_never_logs no_update no_format no_str
             (fresh_world (fun _ => None))).
    reflexivity.
Defined.

(** * Further properties of the notebook's code *)

(** ** Helpers: [leakyReLU] and the convolutions *)

(** X1.  [leakyReLU] with a slope [alpha] of at most 1 keeps the shape,
    passes the elements that are not negative unchanged and multiplies the
    elements that are not positive by [alpha]. *)
Theorem X1_leakyReLU_piecewise (alpha : R) (X : tensor) :
  (alpha <= 1)%R ->
  exists t,
    leakyReLU alpha X = Ok t
    /\ shape t = shape X
    /\ forall k, k < size_of (shape X) ->
         ((0 <= item X k)%R -> item t k = item X k)
         /\ ((item X k <= 0)%R -> item t k = (item X k * alpha)%R).
Proof.
  intros Ha. rewrite leakyReLU_eq. eexists. split; [reflexivity|].
  split; [reflexivity|].
  intros k Hk. rewrite item_init by exact Hk. split; intros Hx.
  - apply Rmax_left. nra.
  - apply Rmax_right. nra.
Qed.

Lemma X1_leakyReLU_piecewise_witness :
  (0.3 <= 1)%R
  /\ exists t,
       leakyReLU 0.3 (black 1) = Ok t
       /\ shape t = shape (black 1)
       /\ forall k, k < size_of (shape (black 1)) ->
            ((0 <= item (black 1) k)%R -> item t k = item (black 1) k)
            /\ ((item (black 1) k <= 0)%R -> item t k = (item (black 1) k * 0.3)%R).
Proof.
  assert (H : (0.3 <= 1)%R) by lra.
  split; [exact H|]. exact (X1_leakyReLU_piecewise 0.3 (black 1) H).
Defined.



(** ** The encoder *)

(** X3.  The encoder accepts every batch size, the empty batch included:
    on [B] flat images its features have shape (B, 3136) and [z], [mean]
    and [stddev] all have shape (B, n_latent). *)
Theorem X3_encoder_shapes v r X B :
  shape X = [B; image_size_flat] ->
  exists feat z mean stddev,
    encoder_features v r X = Ok feat
    /\ shape feat = [B; 7 * 7 * 64]
    /\ encoder v r X = Ok (z, mean, stddev)
    /\ shape z = [B; n_latent]
    /\ shape mean = [B; n_latent]
    /\ shape stddev = [B; n_latent].
Proof.
  intros HX.
  destruct (encoder_ok v r X B HX)
    as (feat & proj & z & mean & stddev & EF & Sf & _ & _ & E & Sz & Sm & Ss & _).
  exists feat, z, mean, stddev. repeat split; assumption.
Qed.

Lemma X3_encoder_shapes_witness :
  shape (black 0) = [0; image_size_flat]
  /\ exists feat z mean stddev,
       encoder_features zero_encoder keep_all (black 0) = Ok feat
       /\ shape feat = [0; 7 * 7 * 64]
       /\ encoder zero_encoder keep_all (black 0) = Ok (z, mean, stddev)
       /\ shape z = [0; n_latent]
       /\ shape mean = [0; n_latent]
       /\ shape stddev = [0; n_latent].
Proof.
  split; [reflexivity|].
  exact (X3_encoder_shapes zero_encoder keep_all (black 0) 0 eq_refl).
Defined.

Lemma encoder_reshape_any (X : tensor) (B : nat) :
  size_of (shape X) = B * image_size_flat ->
  tf_reshape X [(-1)%Z; Z.of_nat image_size; Z.of_nat image_size;
                Z.of_nat image_channel]
  = Ok (mkT (B :: image_shape) (data X)).
Proof.
  intros Hs.
  change [(-1)%Z; Z.of_nat image_size; Z.of_nat image_size; Z.of_nat image_channel]
    with ((-1)%Z :: map Z.of_nat image_shape).
  assert (Hk : size_of image_shape = image_size_flat) by reflexivity.
  rewrite tf_reshape_infer.
  - rewrite Hs, Hk, Nat.div_mul by discriminate. reflexivity.
  - rewrite Hk. discriminate.
  - rewrite Hs, Hk. apply Nat.Div0.mod_mul.
Qed.

(** X4.  The encoder reshapes its input itself, so it reads only the data
    and the number of elements: a tensor of any shape that holds [B] whole
    images gives the same three outputs as the flat batch (B, 784) with the
    same data. *)
Theorem X4_encoder_layout v r X B :
  size_of (shape X) = B * image_size_flat ->
  encoder v r X = encoder v r (mkT [B; image_size_flat] (data X)).
Proof.
  intros Hs. unfold encoder, encoder_features.
  rewrite (encoder_reshape_any X B Hs).
  rewrite (encoder_reshape_any (mkT [B; image_size_flat] (data X)) B)
    by apply size_of_2.
  reflexivity.
Qed.

Lemma X4_encoder_layout_witness :
  size_of (shape (black_images 2)) = 2 * image_size_flat
  /\ encoder zero_encoder keep_all (black_images 2)
     = encoder zero_encoder keep_all
         (mkT [2; image_size_flat] (data (black_images 2))).
Proof.
  split; [reflexivity|].
  exact (X4_encoder_layout zero_encoder keep_all (black_images 2) 2 eq_refl).
Defined.

(** ** The decoder *)

(** X6.  The decoder regroups eight latent vectors into one feature map:
    on [B] latent vectors it returns [B / 8] images of 28 x 28 x 1 when 8
    divides [B], and raises [InvalidArgumentError] otherwise. *)
Theorem X6_decoder_batch v r z B :
  shape z = [B; n_latent] ->
  (B mod 8 = 0 ->
     exists img, decoder v r z = Ok img /\ shape img = [B / 8; 28; 28; 1])
  /\ (B mod 8 <> 0 -> decoder v r z = Raise InvalidArgumentError).
Proof. apply decoder_shape. Qed.

Lemma X6_decoder_batch_witness :
  shape (init [12; n_latent] (fun _ => 0%R)) = [12; n_latent]
  /\ (12 mod 8 = 0 ->
        exists img,
          decoder zero_decoder keep_all_dec (init [12; n_latent] (fun _ => 0%R)) = Ok img
          /\ shape img = [12 / 8; 28; 28; 1])
  /\ (12 mod 8 <> 0 ->
        decoder zero_decoder keep_all_dec (init [12; n_latent] (fun _ => 0%R))
        = Raise InvalidArgumentError).
Proof.
  split; [reflexivity|].
  exact (X6_decoder_batch zero_decoder keep_all_dec
           (init [12; n_latent] (fun _ => 0%R)) 12 eq_refl).
Defined.

Lemma sigmoid_bounds (x : R) : (0 < 1 / (1 + exp (- x)) < 1)%R.
Proof.
  pose proof (exp_pos (- x)) as He.
  assert (H1 : (0 < 1 + exp (- x))%R) by lra.
  split.
  - apply Rdiv_lt_0_compat; lra.
  - apply (Rmult_lt_reg_r (1 + exp (- x))); [exact H1|].
    unfold Rdiv. rewrite Rmult_assoc, Rinv_l by lra. lra.
Qed.

(** X7.  Every pixel the decoder returns lies between 0 and 1, the ends
    included, whatever the variables, the dropout masks and the latent
    vectors. *)
Theorem X7_decoder_pixels v r z B :
  shape z = [B; n_latent] -> B mod 8 = 0 ->
  exists img,
    decoder v r z = Ok img
    /\ forall k, k < size_of (shape img) -> (0 <= item img k <= 1)%R.
Proof.
  intros Hz HB.
  destruct (decoder_shape v r z B Hz) as [Hok _].
  destruct (Hok HB) as (img & E & S).
  exists img. split; [exact E|].
  revert E. unfold decoder.
  destruct (dense (dec_dense v) z decoder_units (Some (leakyReLU 0.3))) as [X0|];
    cbn [rbind]; [|discriminate].
  destruct (dense (dec_dense_1 v) z (decoder_units * 2) (Some (leakyReLU 0.3)))
    as [X1|]; cbn [rbind]; [|discriminate].
  destruct (tf_reshape X1 _) as [X2|]; cbn [rbind]; [|discriminate].
  destruct (conv2d_transpose (dec_conv1 v) (dec_keep1 r) X2 64 4 2 tf_nn_relu true)
    as [X3|]; cbn [rbind]; [|discriminate].
  destruct (conv2d_transpose (dec_conv2 v) (dec_keep2 r) X3 64 4 1 tf_nn_relu true)
    as [X4|]; cbn [rbind]; [|discriminate].
  destruct (conv2d_transpose (dec_conv3 v) (fun _ => true) X4 64 4 1 tf_nn_relu false)
    as [X5|]; cbn [rbind]; [|discriminate].
  unfold flatten. destruct (shape X5) as [|n [|d rest]]; cbn [rbind]; try discriminate.
  unfold dense, tf_layers_dense. cbn [shape split_last app activate tf_nn_sigmoid_act].
  match goal with |- context [tf_nn_sigmoid ?t] => set (pre := t) end.
  cbn [rbind].
  rewrite (reshape_batch (tf_nn_sigmoid pre) n image_size_flat image_shape)
    by (try reflexivity; discriminate).
  intros Eimg. apply Ok_inj in Eimg. subst img.
  intros k Hk. rewrite item_data. unfold tf_nn_sigmoid.
  rewrite item_tmap.
  - match goal with |- (0 <= 1 / (1 + exp (- ?x)) <= 1)%R =>
      pose proof (sigmoid_bounds x) end. lra.
  - unfold pre. cbn [data init]. unfold tabulate. rewrite length_map, length_seq.
    rewrite size_of_2. exact Hk.
Qed.

Lemma X7_decoder_pixels_witness :
  shape (init [8; n_latent] (fun _ => 0%R)) = [8; n_latent] /\ 8 mod 8 = 0
  /\ exists img,
       decoder zero_decoder keep_all_dec (init [8; n_latent] (fun _ => 0%R)) = Ok img
       /\ forall k, k < size_of (shape img) -> (0 <= item img k <= 1)%R.
Proof.
  split; [reflexivity|]. split; [reflexivity|].
  exact (X7_decoder_pixels zero_decoder keep_all_dec
           (init [8; n_latent] (fun _ => 0%R)) 8 eq_refl eq_refl).
Defined.

(** ** The loss *)

Lemma sum_upto_nonneg (n : nat) (f : nat -> R) :
  (forall i, i < n -> (0 <= f i)%R) -> (0 <= sum_upto n f)%R.
Proof.
  intros H. rewrite <- (sum_upto_zero n (fun _ => 0%R)) by reflexivity.
  now apply sum_upto_le.
Qed.

Lemma item_init_nonneg (s : list nat) (f : nat -> R) :
  (forall k, (0 <= f k)%R) -> forall k, (0 <= item (init s f) k)%R.
Proof.
  intros Hf k. destruct (Nat.lt_ge_cases k (size_of s)) as [Hlt|Hge].
  - rewrite item_init by exact Hlt. apply Hf.
  - unfold item, init, tabulate. cbn [data].
    rewrite nth_overflow by (now rewrite length_map, length_seq). lra.
Qed.

(** X8.  Whenever the reconstruction loss is computed, whatever the shapes
    of reconstruction and target (one image per target, or one image
    broadcast against all targets), none of its elements is negative. *)
Theorem X8_img_loss_nonneg (img y il : tensor) :
  img_loss img y = Ok il ->
  forall k, (0 <= item il k)%R.
Proof.
  unfold img_loss. intros H.
  destruct (tf_reshape img _) as [img_reshape|]; cbn [rbind] in H; [|discriminate].
  unfold tf_squared_difference, binop in H.
  destruct (broadcast_shape _ _) as [rs|]; cbn [rbind] in H; [|discriminate].
  match type of H with tf_reduce_sum_axis1 ?t = _ => set (d := t) in * end.
  assert (Hd : forall k, (0 <= item d k)%R).
  { apply item_init_nonneg. intros k. apply Rle_0_sqr. }
  unfold tf_reduce_sum_axis1 in H.
  destruct (shape d) as [|a [|p rest]]; try discriminate.
  apply Ok_inj in H. subst il.
  apply item_init_nonneg. intros k. apply sum_upto_nonneg. intros j _. apply Hd.
Qed.

Lemma X8_img_loss_nonneg_witness :
  exists il,
    img_loss (black_images 1) (black 8) = Ok il
    /\ forall k, (0 <= item il k)%R.
Proof.
  eexists. split.
  - exact (img_loss_one_image (black_images 1) (black 8) 8 eq_refl eq_refl).
  - exact (X8_img_loss_nonneg (black_images 1) (black 8) _
             (img_loss_one_image (black_images 1) (black 8) 8 eq_refl eq_refl)).
Defined.

(** ** The graph *)

(** X12.  A session run of the whole graph fails for every batch size other
    than 8 (and 0), the notebook's 24 included: the decoder refuses the
    batch or the reconstruction loss cannot pair [B / 8] images with [B]
    targets, and [InvalidArgumentError] is raised. *)
Theorem X12_graph_raises v r batch B :
  shape batch = [B; image_size_flat] -> B <> 0 -> B <> 8 ->
  graph v r batch = Raise InvalidArgumentError.
Proof. apply graph_raises. Qed.

Lemma X12_graph_raises_witness :
  shape (black batch_size) = [batch_size; image_size_flat]
  /\ batch_size <> 0 /\ batch_size <> 8
  /\ graph (zero_encoder, zero_decoder) (keep_all, keep_all_dec) (black batch_size)
     = Raise InvalidArgumentError.
Proof.
  assert (H0 : batch_size <> 0) by discriminate.
  assert (H8 : batch_size <> 8) by discriminate.
  split; [reflexivity|]. split; [exact H0|]. split; [exact H8|].
  exact (X12_graph_raises (zero_encoder, zero_decoder) (keep_all, keep_all_dec)
           (black batch_size) batch_size eq_refl H0 H8).
Defined.

(** X13.  On a batch of 8 the graph runs: the decoder returns one image,
    and the reconstruction loss of each of the 8 examples compares that
    single image with the example's own target. *)
Theorem X13_graph_batch_8 v r batch :
  shape batch = [8; image_size_flat] ->
  exists f,
    graph v r batch = Ok f
    /\ shape (f_z f) = [8; n_latent]
    /\ shape (f_img f) = [1; 28; 28; 1]
    /\ forall i, i < 8 ->
         item (f_img_loss f) i
         = sum_upto image_size_flat (fun j =>
             (item (f_img f) j - item batch (i * image_size_flat + j))
             * (item (f_img f) j - item batch (i * image_size_flat + j)))%R.
Proof. apply graph_batch_8. Qed.

Lemma X13_graph_batch_8_witness :
  shape (black 8) = [8; image_size_flat]
  /\ exists f,
       graph (zero_encoder, zero_decoder) (keep_all, keep_all_dec) (black 8) = Ok f
       /\ shape (f_z f) = [8; n_latent]
       /\ shape (f_img f) = [1; 28; 28; 1]
       /\ forall i, i < 8 ->
            item (f_img_loss f) i
            = sum_upto image_size_flat (fun j =>
                (item (f_img f) j - item (black 8) (i * image_size_flat + j))
                * (item (f_img f) j - item (black 8) (i * image_size_flat + j)))%R.
Proof.
  split; [reflexivity|].
  exact (X13_graph_batch_8 (zero_encoder, zero_decoder) (keep_all, keep_all_dec)
           (black 8) eq_refl).
Defined.

(** ** The encoder and the KL term together *)

(** X21.  Written in the output [p] of the encoder's second projection, the
    KL loss of an example is -0.5 times the sum of
    [1 + p - mean^2 - exp p]: the halving in the encoder and the doubling
    in the loss cancel, so the projection plays the part of a log-variance. *)
Theorem X21_latent_loss_of_projection ev er X B :
  shape X = [B; image_size_flat] ->
  exists feat proj z mean stddev kl,
    encoder_features ev er X = Ok feat
    /\ encoder_stddev_projection ev feat = Ok proj
    /\ encoder ev er X = Ok (z, mean, stddev)
    /\ latent_loss mean stddev = Ok kl
    /\ forall i, i < B ->
         item kl i
         = (-0.5 * sum_upto n_latent (fun j =>
                     1 + item proj (i * n_latent + j)
                     - item mean (i * n_latent + j) ^ 2
                     - exp (item proj (i * n_latent + j))))%R.
Proof.
  intros HX.
  destruct (encoder_ok ev er X B HX)
    as (feat & proj & z & mean & stddev & EF & _ & _ & EP & E & _ & Sm & Ss & _ & Hs & _).
  exists feat, proj, z, mean, stddev. eexists.
  split; [exact EF|]. split; [exact EP|]. split; [exact E|].
  split; [apply (latent_loss_eq mean stddev B n_latent Sm Ss)|].
  intros i Hi. rewrite item_init by (now rewrite size_of_1).
  f_equal. apply sum_upto_ext. intros j Hj. unfold kl_term.
  rewrite (Hs (i * n_latent + j)) by nia.
  replace (2 * (0.5 * item proj (i * n_latent + j)))%R
    with (item proj (i * n_latent + j)) by lra.
  simpl pow. lra.
Qed.

Lemma X21_latent_loss_of_projection_witness :
  shape (black 1) = [1; image_size_flat]
  /\ exists feat proj z mean stddev kl,
       encoder_features bias2_encoder keep_all (black 1) = Ok feat
       /\ encoder_stddev_projection bias2_encoder feat = Ok proj
       /\ encoder bias2_encoder keep_all (black 1) = Ok (z, mean, stddev)
       /\ latent_loss mean stddev = Ok kl
       /\ forall i, i < 1 ->
            item kl i
            = (-0.5 * sum_upto n_latent (fun j =>
                        1 + item proj (i * n_latent + j)
                        - item mean (i * n_latent + j) ^ 2
                        - exp (item proj (i * n_latent + j))))%R.
Proof.
  split; [reflexivity|].
  exact (X21_latent_loss_of_projection bias2_encoder keep_all (black 1) 1 eq_refl).
Defined.

(** ** The checkpoint cell *)


(** X15.  When the checkpoint path exists but is a file, the [if] statement
    that ends the checkpoint cell passes the existence test and fails in
    the directory listing: it raises [NotADirectoryError], and the
    statement itself has changed nothing. *)
Theorem X15_checkpoint_if_file (w : world) :
  fs w save_path = Some FileNode ->
  checkpoint_cell w = (Raise NotADirectoryError, w).
Proof. apply checkpoint_cell_file. Qed.

Lemma X15_checkpoint_if_file_witness :
  fs (fresh_world file_fs) save_path = Some FileNode
  /\ checkpoint_cell (fresh_world file_fs)
     = (Raise NotADirectoryError, fresh_world file_fs).
Proof.
  split; [reflexivity|].
  exact (X15_checkpoint_if_file (fresh_world file_fs) eq_refl).
Defined.

(** X16.  Executing the [if] statement that ends the checkpoint cell a
    second time changes nothing when the first execution did not restore:
    if the checkpoint path is missing, is a file, or is a directory with at
    most one entry, two executions in a row end like one. *)
Theorem X16_checkpoint_if_twice (w : world) :
  (forall entries, fs w save_path = Some (DirNode entries) -> length entries <= 1) ->
  bind checkpoint_cell (fun _ => checkpoint_cell) w = checkpoint_cell w.
Proof.
  intros Hsmall. unfold bind at 1.
  destruct (fs w save_path) as [[|entries]|] eqn:E.
  - rewrite (checkpoint_cell_file w E). reflexivity.
  - rewrite (checkpoint_cell_small_dir w entries E (Hsmall entries eq_refl)).
    apply (checkpoint_cell_small_dir w entries E (Hsmall entries eq_refl)).
  - rewrite (checkpoint_cell_eq w), E. unfold tf_gfile_MakeDirs.
    apply (checkpoint_cell_small_dir _ []); [|apply Nat.le_0_l].
    cbn [with_fs fs]. now rewrite String.eqb_refl.
Qed.

Lemma X16_checkpoint_if_twice_witness :
  (forall entries,
     fs (fresh_world (fun _ => None)) save_path = Some (DirNode entries) ->
     length entries <= 1)
  /\ bind checkpoint_cell (fun _ => checkpoint_cell) (fresh_world (fun _ => None))
     = checkpoint_cell (fresh_world (fun _ => None)).
Proof.
  assert (H : forall entries,
             fs (fresh_world (fun _ => None)) save_path = Some (DirNode entries) ->
             length entries <= 1) by (intros entries E; discriminate E).
  split; [exact H|].
  exact (X16_checkpoint_if_twice (fresh_world (fun _ => None)) H).
Defined.

(** ** The training cell *)

Lemma viz_only_when_logging (i : nat) :
  i mod log_step <> 0 -> i mod viz_step <> 0.
Proof.
  intros Hl Hv. apply Hl.
  apply Nat.Div0.mod_divides in Hv. destruct Hv as [c Hc].
  apply Nat.Div0.mod_divides. exists (5 * c).
  rewrite Hc. change viz_step with (log_step * 5). lia.
Qed.

Section TrainingMore.

Variable minimize : model_vars -> run_draws -> tensor -> model_vars.
Variable format_float : string -> R -> string.
Variable str : pyval -> string.

(** X17.  The format string of the logging statement can never be
    rendered: whatever arguments it is given, and however floats are
    printed, [format] raises an exception instead of returning a string. *)
Theorem X17_log_template_never_renders (args : list pyval) :
  exists e, str_format format_float str log_template args = Raise e.
Proof.
  unfold log_template.
  destruct args as [|a1 [|a2 [|a3 [|a4 rest]]]];
    cbn [str_format format_field rbind];
    repeat match goal with
    | a : pyval |- _ => destruct a; cbn [str_format format_field rbind]
    end;
    eexists; reflexivity.
Qed.

(** X18.  On a batch of 8, where the session run succeeds, the logging
    block reads the clock once and then raises [NameError] for
    [start_time]; nothing is written to the console. *)
Theorem X18_log_block_NameError (w : world) (batch : tensor) :
  shape batch = [8; image_size_flat] ->
  lookup "start_time" (env w) = None ->
  exists w',
    log_block format_float str batch w = (Raise (NameError "start_time"), w')
    /\ stdout w' = stdout w
    /\ readings w' = S (readings w)
    /\ runs w' = S (runs w).
Proof.
  intros Hb Hs.
  destruct (graph_batch_8 (vars w) (rng w (runs w)) batch Hb) as (f & G & _).
  unfold log_block.
  rewrite (bind_ok _ _ w (with_runs w (S (runs w))) f)
    by (unfold sess_run; now rewrite G).
  unfold bind, store_name. cbv beta iota.
  erewrite log_statement_NameError; try reflexivity.
  - eexists. split; [reflexivity|]. repeat split.
  - cbn. exact Hs.
Qed.

(** X19.  An iteration whose index is no multiple of [log_step] neither
    logs nor plots ([viz_step] is a multiple of [log_step]): on a batch of
    8 it draws one batch, makes one session run that updates the
    variables, and leaves the console and the clock untouched. *)
Theorem X19_iteration_without_logging (w : world) (i : nat) :
  i mod log_step <> 0 ->
  shape (batches w (drawn w)) = [8; image_size_flat] ->
  exists w',
    iteration minimize format_float str i w = (Ok tt, w')
    /\ stdout w' = stdout w
    /\ trace w' = trace w
    /\ readings w' = readings w
    /\ drawn w' = S (drawn w)
    /\ runs w' = S (runs w)
    /\ vars w' = minimize (vars w) (rng w (runs w)) (batches w (drawn w)).
Proof.
  intros Hi Hb.
  pose proof (viz_only_when_logging i Hi) as Hv.
  destruct (graph_batch_8 (vars w) (rng w (runs w)) (batches w (drawn w)) Hb)
    as (f & G & _).
  apply Nat.eqb_neq in Hi. apply Nat.eqb_neq in Hv.
  unfold iteration. rewrite Hi, Hv.
  unfold bind, next_batch, store_name, sess_run_train_step, ret.
  cbn [with_drawn with_env vars rng runs batches drawn].
  rewrite G.
  eexists. split; [reflexivity|]. repeat split.
Qed.

(** X20.  On batches of the notebook's size, 24, the training cell stops
    in its first training step with [InvalidArgumentError]: no variable is
    updated and nothing is written. *)
Theorem X20_training_cell_batch_size (w : world) :
  shape (batches w (drawn w)) = [batch_size; image_size_flat] ->
  exists w',
    training_cell minimize format_float str w = (Raise InvalidArgumentError, w')
    /\ stdout w' = stdout w /\ vars w' = vars w.
Proof. apply training_cell_batch_size. Qed.

End TrainingMore.

Lemma X18_log_block_NameError_witness :
  shape (black 8) = [8; image_size_flat]
  /\ lookup "start_time" (env (world_of_batches (black 8))) = None
  /\ exists w',
       log_block no_format no_str (black 8) (world_of_batches (black 8))
       = (Raise (NameError "start_time"), w')
       /\ stdout w' = stdout (world_of_batches (black 8))
       /\ readings w' = S (readings (world_of_batches (black 8)))
       /\ runs w' = S (runs (world_of_batches (black 8))).
Proof.
  split; [reflexivity|]. split; [reflexivity|].
  exact (X18_log_block_NameError no_format no_str (world_of_batches (black 8))
           (black 8) eq_refl eq_refl).
Defined.

Lemma X19_iteration_without_logging_witness :
  1 mod log_step <> 0
  /\ shape (batches (world_of_batches (black 8)) (drawn (world_of_batches (black 8))))
     = [8; image_size_flat]
  /\ exists w',
       iteration no_update no_format no_str 1 (world_of_batches (black 8)) = (Ok tt, w')
       /\ stdout w' = stdout (world_of_batches (black 8))
       /\ trace w' = trace (world_of_batches (black 8))
       /\ readings w' = readings (world_of_batches (black 8))
       /\ drawn w' = S (drawn (world_of_batches (black 8)))
       /\ runs w' = S (runs (world_of_batches (black 8)))
       /\ vars w'
          = no_update (vars (world_of_batches (black 8)))
              (rng (world_of_batches (black 8)) (runs (world_of_batches (black 8))))
              (batches (world_of_batches (black 8))
                 (drawn (world_of_batches (black 8)))).
Proof.
  assert (H : 1 mod log_step <> 0) by (vm_compute; discriminate).
  split; [exact H|]. split; [reflexivity|].
  exact (X19_iteration_without_logging no_update no_format no_str
           (world_of_batches (black 8)) 1 H eq_refl).
Defined.

Lemma X20_training_cell_batch_size_witness :
  shape (batches (fresh_world (fun _ => None)) (drawn (fresh_world (fun _ => None))))
  = [batch_size; image_size_flat]
  /\ exists w',
       training_cell no_update no_format no_str (fresh_world (fun _ => None))
       = (Raise InvalidArgumentError, w')
       /\ stdout w' = stdout (fresh_world (fun _ => None))
       /\ vars w' = vars (fresh_world (fun _ => None)).
Proof.
  split; [reflexivity|].
  exact (X20_training_cell_batch_size no_update no_format no_str
           (fresh_world (fun _ => None)) eq_refl).
Defined.
